(** * auto_lims: a folder-watching CSV ingestion pipeline

    Shallow embedding of [auto_lims.py] and the properties of its
    specification.  The file is organised as the Python module is:
    string primitives, the helper functions ([clean_name], [parse_value],
    [infer_sql_type], [move_file]), then [process_file] and the body of
    [main_loop].

    Python [str] values are modelled as [string]; a character is a Unicode
    code point below 256 (Latin-1), which is closed under [str.lower] and
    covers every character the program itself tests for. *)

From Stdlib Require Import String Ascii List Bool Arith Lia.
From stdpp Require Import base list gmap strings.
Import ListNotations.

Local Open Scope string_scope.
Local Open Scope list_scope.

(* ================================================================== *)
(** * Part I: definitions *)
(* ================================================================== *)

(** ** Python string primitives *)

Module PyStr.

(** [str.isspace] on one code point: TAB..CR, FS..US, SPACE, NEL, NBSP. *)
Definition isspace (c : ascii) : bool :=
  let n := nat_of_ascii c in
  (Nat.leb 9 n && Nat.leb n 13) || (Nat.leb 28 n && Nat.leb n 32)
  || Nat.eqb n 133 || Nat.eqb n 160.

(** [str.lower] on one code point: A-Z and the Latin-1 capitals
    (0xC0-0xDE except the multiplication sign 0xD7) move up by 32. *)
Definition lower_char (c : ascii) : ascii :=
  let n := nat_of_ascii c in
  if (Nat.leb 65 n && Nat.leb n 90)
     || (Nat.leb 192 n && Nat.leb n 222 && negb (Nat.eqb n 215))
  then ascii_of_nat (n + 32) else c.

Fixpoint lower (s : string) : string :=
  match s with
  | EmptyString => EmptyString
  | String c s' => String (lower_char c) (lower s')
  end.

Fixpoint lstrip (s : string) : string :=
  match s with
  | EmptyString => EmptyString
  | String c s' => if isspace c then lstrip s' else s
  end.

Fixpoint rstrip (s : string) : string :=
  match s with
  | EmptyString => EmptyString
  | String c s' =>
      match rstrip s' with
      | EmptyString => if isspace c then EmptyString else String c EmptyString
      | r => String c r
      end
  end.

(** [s.strip()] with no argument. *)
Definition strip (s : string) : string := rstrip (lstrip s).

(** [s.replace(old, new)] for a one-character [old], the only form the
    program uses. *)
Fixpoint replace (old : ascii) (new : string) (s : string) : string :=
  match s with
  | EmptyString => EmptyString
  | String c s' =>
      if Ascii.eqb c old then new +:+ replace old new s'
      else String c (replace old new s')
  end.

(** [s.startswith(p)]. *)
Fixpoint startswith (p s : string) : bool :=
  match p, s with
  | EmptyString, _ => true
  | String a p', String b s' => Ascii.eqb a b && startswith p' s'
  | String _ _, EmptyString => false
  end.

(** [sub in s]. *)
Fixpoint contains (sub s : string) : bool :=
  startswith sub s ||
  match s with
  | EmptyString => false
  | String _ s' => contains sub s'
  end.

(** Every character of [s] satisfies [P]. *)
Fixpoint sforall (P : ascii -> bool) (s : string) : bool :=
  match s with
  | EmptyString => true
  | String c s' => P c && sforall P s'
  end.

End PyStr.

(** ** Helper functions of the module *)

(** The chain of [.replace] calls of [clean_name], innermost first. *)
Definition substitutions (s : string) : string :=
  PyStr.replace ")" EmptyString
    (PyStr.replace "(" EmptyString
      (PyStr.replace "+" "plus_"
        (PyStr.replace "/" "_"
          (PyStr.replace "." "_"
            (PyStr.replace "-" "_"
              (PyStr.replace " " "_" s)))))).

(** [clean_name(name)]: [not name] holds for [None] and for the empty
    string. *)
Definition clean_name (name : option string) : string :=
  match name with
  | None => "unknown_col"
  | Some EmptyString => "unknown_col"
  | Some n => substitutions (PyStr.lower (PyStr.strip n))
  end.


(** The characters [clean_name] substitutes or removes. *)
Definition structural_chars : list ascii :=
  [" " ; "-" ; "." ; "/" ; "+" ; "(" ; ")"]%char.

(** A character that is its own lowercase form. *)
Definition is_lowered (c : ascii) : bool := Ascii.eqb (PyStr.lower_char c) c.

(** Lowered and none of the first [k] structural characters. *)
Definition cleared (k : nat) (c : ascii) : bool :=
  is_lowered c && negb (existsb (Ascii.eqb c) (firstn k structural_chars)).

(** A character a normalized header may hold. *)
Definition name_char (c : ascii) : bool := cleared 7 c.

(** The list literal of [parse_value]. *)
Definition null_markers : list string := [EmptyString ; "N/A" ; "n/a" ; "NaN" ; "nan"].

(** [v in [...]] on strings. *)
Definition str_in (v : string) (l : list string) : bool :=
  existsb (String.eqb v) l.

(** [parse_value(value)]. *)
Definition parse_value (value : option string) : option string :=
  match value with
  | None => None
  | Some s =>
      let v := PyStr.strip s in
      if str_in v null_markers then None else Some v
  end.

(** ** Exceptions, values and SQL types *)

(** The exceptions the program can meet, named after the place that
    raises them. *)
Inductive exn : Type :=
  | EmptyFileError    (** [raise Exception] when [next(reader)] stops: no header row *)
  | NoDataError       (** [raise Exception] when [raw_data] is empty *)
  | OSError           (** [open], the reader or [shutil.move] failed *)
  | ConnectionError   (** [psycopg2.connect] failed *)
  | DatabaseError     (** a cursor or connection method failed *)
  | TypeError         (** [float] of something that is not a string *)
  | IndexError.       (** list index out of range *)

Inductive result (A : Type) : Type :=
  | Ok (a : A)
  | Raise (e : exn).
Arguments Ok {A} a.
Arguments Raise {A} e.

Definition rbind {A B} (r : result A) (k : A -> result B) : result B :=
  match r with
  | Ok a => k a
  | Raise e => Raise e
  end.

(** What [datetime.now()] returns, as far as the program looks at it. *)
Record datetime : Type := mk_datetime {
  dt_year : nat; dt_month : nat; dt_day : nat;
  dt_hour : nat; dt_minute : nat; dt_second : nat
}.

(** A cell of a row handed to the database: [None], a [str] or the
    [datetime] of the import. *)
Inductive value : Type :=
  | VNone
  | VStr (s : string)
  | VTime (d : datetime).

(** A normalized data cell seen as a row value. *)
Definition of_cell (c : option string) : value :=
  match c with
  | None => VNone
  | Some s => VStr s
  end.

Inductive sql_type : Type := TEXT | DOUBLE_PRECISION | TIMESTAMP.

(** The type names as they are written into the CREATE statement. *)
Definition sql_type_name (t : sql_type) : string :=
  match t with
  | TEXT => "TEXT"
  | DOUBLE_PRECISION => "DOUBLE PRECISION"
  | TIMESTAMP => "TIMESTAMP"
  end.

(** ** Type inference *)

Section TypeInference.

(** [float_ok s]: the builtin [float(s)] accepts the string [s], that
    is, does not raise [ValueError]. *)
Variable float_ok : string -> bool.

(** The [for v in values] loop of [infer_sql_type].  [has_data] is the
    flag so far; the result is [(is_numeric, has_data)] at loop exit.
    [float] of a value that is neither [None] (skipped) nor a string
    raises [TypeError], which the [except ValueError] does not catch. *)
Fixpoint scan_values (values : list value) (has_data : bool)
  : result (bool * bool) :=
  match values with
  | [] => Ok (true, has_data)
  | VNone :: rest => scan_values rest has_data
  | VStr s :: rest =>
      if float_ok s then scan_values rest true
      else Ok (false, true)
  | VTime _ :: _ => Raise TypeError
  end.

(** [infer_sql_type(header_name, values)]. *)
Definition infer_sql_type (header_name : string) (values : list value)
  : result sql_type :=
  if PyStr.contains "date" header_name || PyStr.contains "time" header_name
  then Ok TIMESTAMP
  else
    rbind (scan_values values false) (fun '(is_numeric, has_data) =>
      if has_data && is_numeric then Ok DOUBLE_PRECISION else Ok TEXT).

End TypeInference.

(** The cell is null or a string [float] accepts. *)
Definition cell_numeric (float_ok : string -> bool) (c : option string) : bool :=
  match c with
  | None => true
  | Some s => float_ok s
  end.

(** An instance of [float_ok] for the examples: the unsigned decimal
    literals [digits] and [digits.digits], all of which [float] accepts. *)
Definition is_digit (c : ascii) : bool :=
  let n := nat_of_ascii c in Nat.leb 48 n && Nat.leb n 57.

Fixpoint all_digits (s : string) : bool :=
  match s with
  | EmptyString => true
  | String c s' => is_digit c && all_digits s'
  end.

Fixpoint decimal_tail (s : string) : bool :=
  match s with
  | EmptyString => true
  | String c s' =>
      if Ascii.eqb c "." then negb (String.eqb s' EmptyString) && all_digits s'
      else is_digit c && decimal_tail s'
  end.

Definition decimal_literal (s : string) : bool :=
  match s with
  | EmptyString => false
  | String c s' => is_digit c && decimal_tail s'
  end.

(** ** CSV loader *)

(** The three directories of the module configuration. *)
Inductive directory : Type := INPUT_DIR | PROCESSED_DIR | ERRORS_DIR.

(** [os.path.join(dir, name)]: a path is a directory and a file name
    in it (names from [os.listdir] hold no separator). *)
Definition join (dir : directory) (name : string) : directory * string :=
  (dir, name).

(** [os.path.basename] *)
Definition basename (p : directory * string) : string := snd p.

(** [row += [None] * (len(original_headers) - len(row))], done when the
    row is shorter than the header. *)
Definition pad_row (n : nat) (row : list string) : list (option string) :=
  if Nat.ltb (length row) n
  then map Some row ++ repeat None (n - length row)
  else map Some row.

(** [[parse_value(val) for val in row[:len(original_headers)]]] *)
Definition clean_cells (n : nat) (row : list string) : list (option string) :=
  map parse_value (firstn n (pad_row n row)).

(** The row after the two [append]s of the metadata. *)
Definition cleaned_row (n : nat) (filename : string) (now : datetime)
    (row : list string) : list value :=
  (map of_cell (clean_cells n row) ++ [VStr filename]) ++ [VTime now].

(** The [for row in reader] loop; [raw_data] is the list built so far. *)
Fixpoint read_rows (n : nat) (filename : string) (now : datetime)
    (rows : list (list string)) (raw_data : list (list value))
  : list (list value) :=
  match rows with
  | [] => raw_data
  | [] :: rest => read_rows n filename now rest raw_data
  | row :: rest =>
      read_rows n filename now rest (raw_data ++ [cleaned_row n filename now row])
  end.

(** What step 1 of [process_file] leaves in its local variables. *)
Record loaded : Type := mk_loaded {
  original_headers : list string;
  headers : list string;
  raw_data : list (list value)
}.

(** Step 1 of [process_file] on the records the reader yields: header
    normalization, metadata columns, the row loop, and the two [raise]
    statements. *)
Definition load_csv (file_path : directory * string) (now : datetime)
    (records : list (list string)) : result loaded :=
  match records with
  | [] => Raise EmptyFileError
  | original :: rows =>
      let hs := (map (fun h => clean_name (Some h)) original
                 ++ ["source_filename"]) ++ ["import_timestamp"] in
      let data := read_rows (length original) (basename file_path) now rows [] in
      match data with
      | [] => Raise NoDataError
      | _ => Ok (mk_loaded original hs data)
      end
  end.

(** ** Schema inference inside [process_file] *)

(** [columns_data[i].append(v)] *)
Definition append_at (columns_data : list (list value)) (i : nat) (v : value)
  : result (list (list value)) :=
  match columns_data !! i with
  | Some col => Ok (<[i := col ++ [v]]> columns_data)
  | None => Raise IndexError
  end.

(** [for i in range(...): columns_data[i].append(row[i])], over the
    indices still to visit. *)
Fixpoint fill_row (row : list value) (indices : list nat)
    (columns_data : list (list value)) : result (list (list value)) :=
  match indices with
  | [] => Ok columns_data
  | i :: rest =>
      match row !! i with
      | None => Raise IndexError
      | Some v => rbind (append_at columns_data i v) (fill_row row rest)
      end
  end.

(** [for row in raw_data: ...] *)
Fixpoint fill_columns (num_data_cols : nat) (rows : list (list value))
    (columns_data : list (list value)) : result (list (list value)) :=
  match rows with
  | [] => Ok columns_data
  | row :: rest =>
      rbind (fill_row row (seq 0 num_data_cols) columns_data)
            (fill_columns num_data_cols rest)
  end.

Section SchemaInference.

Variable float_ok : string -> bool.

(** The body of [for i, h in enumerate(headers)], giving the type
    appended to [column_types]. *)
Definition column_type (num_data_cols : nat)
    (columns_data : list (list value)) (i : nat) (h : string)
  : result sql_type :=
  if String.eqb h "source_filename" then Ok TEXT
  else if String.eqb h "import_timestamp" then Ok TIMESTAMP
  else if Nat.ltb i num_data_cols then
    match columns_data !! i with
    | Some values => infer_sql_type float_ok h values
    | None => Raise IndexError
    end
  else Ok TEXT.

(** The [enumerate] loop from index [i] on. *)
Fixpoint column_types_from (num_data_cols : nat)
    (columns_data : list (list value)) (i : nat) (hs : list string)
  : result (list sql_type) :=
  match hs with
  | [] => Ok []
  | h :: rest =>
      rbind (column_type num_data_cols columns_data i h) (fun t =>
      rbind (column_types_from num_data_cols columns_data (S i) rest) (fun ts =>
      Ok (t :: ts)))
  end.

(** Step 3 of [process_file]: the column types of a loaded file. *)
Definition infer_types (ld : loaded) : result (list sql_type) :=
  let num_data_cols := length (original_headers ld) in
  rbind (fill_columns num_data_cols (raw_data ld) (repeat [] num_data_cols))
    (fun columns_data =>
       column_types_from num_data_cols columns_data 0 (headers ld)).

End SchemaInference.

(** ** SQL text *)

Definition TABLE_NAME : string := "lims_backup_historico".

(** [', '.join(parts)] *)
Fixpoint join_comma (parts : list string) : string :=
  match parts with
  | [] => EmptyString
  | [p] => p
  | p :: rest => p +:+ ", " +:+ join_comma rest
  end.

(** [col_defs]: one ["{h} {ctype}"] per pair of [zip(headers, column_types)]. *)
Definition col_defs (columns : list (string * sql_type)) : list string :=
  map (fun '(h, ctype) => h +:+ " " +:+ sql_type_name ctype) columns.

Definition create_query (columns : list (string * sql_type)) : string :=
  "CREATE TABLE IF NOT EXISTS " +:+ TABLE_NAME +:+ " ("
    +:+ join_comma (col_defs columns) +:+ ");".

(** ** The world outside the process *)

#[global] Instance directory_eq_dec : EqDecision directory.
Proof. solve_decision. Defined.

#[global] Instance directory_countable : Countable directory.
Proof.
  refine (inj_countable'
    (fun d => match d with INPUT_DIR => 0 | PROCESSED_DIR => 1 | ERRORS_DIR => 2 end)
    (fun n => match n with 0 => INPUT_DIR | 1 => PROCESSED_DIR | _ => ERRORS_DIR end)
    _).
  intros []; reflexivity.
Defined.

(** The table of the database: its columns in creation order and its rows. *)
Record table : Type := mk_table {
  t_columns : list (string * sql_type);
  t_rows : list (list value)
}.

(** The calls the process makes on the database and the file system. *)
Inductive event : Type :=
  | EvConnect (ok : bool)
  | EvExecute (query : string)
  | EvExecuteMany (rows : list (list value))
  | EvCommit
  | EvRollback
  | EvClose
  | EvMove (src dst : directory * string).

(** - [w_fs]: the regular files of the three directories, each with the
      records [csv.reader] yields for it;
    - [w_db]: the committed table, [None] while it does not exist;
    - [w_conn]: the view of the open connection's transaction, [None]
      when no connection is open;
    - [w_trace]: the calls made so far, oldest first. *)
Record world : Type := mk_world {
  w_fs : gmap (directory * string) (list (list string));
  w_db : option table;
  w_conn : option (option table);
  w_trace : list event
}.

Definition set_fs (fs : gmap (directory * string) (list (list string))) (w : world) : world :=
  mk_world fs (w_db w) (w_conn w) (w_trace w).
Definition set_db (db : option table) (w : world) : world :=
  mk_world (w_fs w) db (w_conn w) (w_trace w).
Definition set_conn (c : option (option table)) (w : world) : world :=
  mk_world (w_fs w) (w_db w) c (w_trace w).
Definition record (ev : event) (w : world) : world :=
  mk_world (w_fs w) (w_db w) (w_conn w) (w_trace w ++ [ev]).

(** What the outside does wrong during one file: which calls raise.
    [f_insert = Some k] makes [executemany] raise after at most [k] rows
    went into the transaction. *)
Record faults : Type := mk_faults {
  f_open : bool;
  f_connect : bool;
  f_create : bool;
  f_insert : option nat;
  f_commit : bool;
  f_rollback : bool;
  f_close : bool
}.

Definition no_faults : faults :=
  mk_faults false false false None false false false.

(** What the outside supplies while one file is handled: the faults, the
    [datetime.now()] of [process_file] and the one of [move_file]. *)
Record env : Type := mk_env {
  e_faults : faults;
  e_now : datetime;
  e_move_now : datetime
}.

(** Computations on the world that may raise; the world changes made
    before an exception stay. *)
Definition M (A : Type) : Type := world -> result A * world.

Definition ret {A} (a : A) : M A := fun w => (Ok a, w).
Definition bind {A B} (m : M A) (k : A -> M B) : M B :=
  fun w => match m w with
           | (Ok a, w1) => k a w1
           | (Raise e, w1) => (Raise e, w1)
           end.
Definition lift {A} (r : result A) : M A := fun w => (r, w).

#[global] Instance M_ret : MRet M := @ret.
#[global] Instance M_bind : MBind M := fun A B k m => bind m k.

(** [try: body except Exception as e: handler] *)
Definition try_except {A} (body : M A) (handler : exn -> M A) : M A :=
  fun w => match body w with
           | (Ok a, w1) => (Ok a, w1)
           | (Raise e, w1) => handler e w1
           end.

(** [try: body finally: cleanup]: the cleanup runs on every exit, and an
    exception it raises replaces the outcome of the body. *)
Definition try_finally {A} (body : M A) (cleanup : M unit) : M A :=
  fun w => match body w with
           | (r, w1) =>
               match cleanup w1 with
               | (Ok _, w2) => (r, w2)
               | (Raise e, w2) => (Raise e, w2)
               end
           end.

(** ** The database connection (psycopg2) *)

(** [psycopg2.connect(...)]: a new connection sees the committed table. *)
Definition connect (fl : faults) : M unit := fun w =>
  if f_connect fl then (Raise ConnectionError, record (EvConnect false) w)
  else (Ok tt, set_conn (Some (w_db w)) (record (EvConnect true) w)).

(** [cur.execute(create_query)]: CREATE TABLE IF NOT EXISTS inside the
    transaction. *)
Definition execute_create (fl : faults) (columns : list (string * sql_type))
  : M unit := fun w =>
  let w := record (EvExecute (create_query columns)) w in
  if f_create fl then (Raise DatabaseError, w)
  else match w_conn w with
       | None => (Raise DatabaseError, w)
       | Some None => (Ok tt, set_conn (Some (Some (mk_table columns []))) w)
       | Some (Some _) => (Ok tt, w)
       end.

(** Positional insert of the rows, one after the other.  The database
    is not part of the repository; the refusal of a row whose length is
    not the number of columns is the contract the specification gives
    for it (a real store may be more lenient with a shorter row), and no
    property stated below rests on a refusal.  The fault [budget] stops
    the statement after that many rows. *)
Fixpoint insert_rows (budget : option nat) (rows : list (list value))
    (t : table) : result unit * table :=
  match rows with
  | [] =>
      match budget with
      | None => (Ok tt, t)
      | Some _ => (Raise DatabaseError, t)
      end
  | r :: rest =>
      match budget with
      | Some 0 => (Raise DatabaseError, t)
      | _ =>
          if Nat.eqb (length r) (length (t_columns t))
          then insert_rows (option_map pred budget) rest
                 (mk_table (t_columns t) (t_rows t ++ [r]))
          else (Raise DatabaseError, t)
      end
  end.

(** [cur.executemany(insert_query, raw_data)] *)
Definition executemany (fl : faults) (rows : list (list value)) : M unit :=
  fun w =>
  let w := record (EvExecuteMany rows) w in
  match w_conn w with
  | Some (Some t) =>
      let '(r, t') := insert_rows (f_insert fl) rows t in
      (r, set_conn (Some (Some t')) w)
  | _ => (Raise DatabaseError, w)
  end.

(** [conn.commit()] *)
Definition commit (fl : faults) : M unit := fun w =>
  let w := record EvCommit w in
  if f_commit fl then (Raise DatabaseError, w)
  else match w_conn w with
       | None => (Raise DatabaseError, w)
       | Some t => (Ok tt, set_db t w)
       end.

(** [conn.rollback()] *)
Definition rollback (fl : faults) : M unit := fun w =>
  let w := record EvRollback w in
  if f_rollback fl then (Raise DatabaseError, w)
  else match w_conn w with
       | None => (Raise DatabaseError, w)
       | Some _ => (Ok tt, set_conn (Some (w_db w)) w)
       end.

(** [conn.close()]: what was not committed is gone. *)
Definition close (fl : faults) : M unit := fun w =>
  let w := record EvClose w in
  if f_close fl then (Raise DatabaseError, w)
  else (Ok tt, set_conn None w).

(** ** The file system *)

(** [open(file_path)] and the [csv.reader] over it. *)
Definition open_csv (fl : faults) (file_path : directory * string)
  : M (list (list string)) := fun w =>
  if f_open fl then (Raise OSError, w)
  else match w_fs w !! file_path with
       | Some records => (Ok records, w)
       | None => (Raise OSError, w)
       end.

(** [os.path.exists] *)
Definition path_exists (p : directory * string) : M bool := fun w =>
  (Ok (bool_decide (is_Some (w_fs w !! p))), w).

(** [shutil.move(src, dst)] onto a file path: a rename, which replaces a
    file already at [dst]; a missing [src] raises. *)
Definition shutil_move (src dst : directory * string) : M unit := fun w =>
  let w := record (EvMove src dst) w in
  match w_fs w !! src with
  | None => (Raise OSError, w)
  | Some content => (Ok tt, set_fs (<[dst := content]> (delete src (w_fs w))) w)
  end.

(** The part of [s] before its last dot and the part from that dot on,
    when [s] has a dot. *)
Fixpoint split_last_dot (s : string) : option (string * string) :=
  match s with
  | EmptyString => None
  | String c s' =>
      match split_last_dot s' with
      | Some (before, ext) => Some (String c before, ext)
      | None => if Ascii.eqb c "." then Some (EmptyString, s) else None
      end
  end.

(** [os.path.splitext] on a file name: the extension starts at the last
    dot, unless only dots come before it. *)
Definition splitext (filename : string) : string * string :=
  match split_last_dot filename with
  | Some (before, ext) =>
      if PyStr.sforall (Ascii.eqb ".") before then (filename, EmptyString)
      else (before, ext)
  | None => (filename, EmptyString)
  end.

Definition digit (n : nat) : ascii := ascii_of_nat (48 + n mod 10).

Definition two_digits (n : nat) : string :=
  String (digit (n / 10)) (String (digit n) EmptyString).

Definition four_digits (n : nat) : string :=
  String (digit (n / 1000)) (String (digit (n / 100)) (two_digits n)).

(** [d.strftime("%Y%m%d_%H%M%S")], for a year of four digits. *)
Definition strftime (d : datetime) : string :=
  four_digits (dt_year d) +:+ two_digits (dt_month d) +:+ two_digits (dt_day d)
    +:+ "_" +:+ two_digits (dt_hour d) +:+ two_digits (dt_minute d)
    +:+ two_digits (dt_second d).

(** The name [f"{base}_{timestamp}{ext}"] used on a collision. *)
Definition disambiguated (now : datetime) (filename : string) : string :=
  let '(base, ext) := splitext filename in
  base +:+ "_" +:+ strftime now +:+ ext.

(** A string of the form YYYYMMDD_HHMMSS. *)
Definition timestamp_shape (s : string) : bool :=
  match list_ascii_of_string s with
  | [y1; y2; y3; y4; m1; m2; d1; d2; u; h1; h2; n1; n2; s1; s2] =>
      forallb is_digit [y1; y2; y3; y4; m1; m2; d1; d2; h1; h2; n1; n2; s1; s2]
      && Ascii.eqb u "_"
  | _ => false
  end.

(** The path [move_file] hands to [shutil.move] as destination. *)
Definition destination (now : datetime) (file_path : directory * string)
    (dest_dir : directory)
    (fs : gmap (directory * string) (list (list string))) : directory * string :=
  if bool_decide (is_Some (fs !! join dest_dir (basename file_path)))
  then join dest_dir (disambiguated now (basename file_path))
  else join dest_dir (basename file_path).

(** [move_file(file_path, dest_dir)]; [now] is what [datetime.now()]
    gives at the move. *)
Definition move_file (now : datetime) (file_path : directory * string)
    (dest_dir : directory) : M unit :=
  try_except
    (let filename := basename file_path in
     let dest_path := join dest_dir filename in
     taken ← path_exists dest_path;
     let dest_path :=
       if (taken : bool) then join dest_dir (disambiguated now filename)
       else dest_path in
     shutil_move file_path dest_path)
    (fun _ => ret tt).

(** ** [process_file] *)

Section Pipeline.

Variable float_ok : string -> bool.

(** The [try] body up to and including [psycopg2.connect]: while it
    runs, the local [conn] is still [None]. *)
Definition load_and_connect (e : env) (file_path : directory * string)
  : M loaded :=
  records ← open_csv (e_faults e) file_path;
  ld ← lift (load_csv file_path (e_now e) records);
  connect (e_faults e) ;;
  ret ld.

(** The rest of the [try] body, steps 3 and 4 and [return True]; [conn]
    is the open connection. *)
Definition infer_and_insert (e : env) (ld : loaded) : M bool :=
  column_types ← lift (infer_types float_ok ld);
  execute_create (e_faults e) (combine (headers ld) column_types) ;;
  executemany (e_faults e) (raw_data ld) ;;
  commit (e_faults e) ;;
  ret true.

(** The whole [try] body, for speaking of what it raises. *)
Definition try_body (e : env) (file_path : directory * string) : M bool :=
  ld ← load_and_connect e file_path;
  infer_and_insert e ld.

(** [process_file(file_path)]: the [except] clause rolls back and the
    [finally] clause closes only when [conn] is set. *)
Definition process_file (e : env) (file_path : directory * string) : M bool :=
  fun w =>
  match load_and_connect e file_path w with
  | (Raise _, w1) => (Ok false, w1)
  | (Ok ld, w1) =>
      try_finally
        (try_except (infer_and_insert e ld)
           (fun _ => rollback (e_faults e) ;; ret false))
        (close (e_faults e)) w1
  end.

(** ** The body of [main_loop] *)

(** [os.listdir(INPUT_DIR)], in the order the file system gives. *)
Definition listdir (d : directory)
    (fs : gmap (directory * string) (list (list string))) : list string :=
  omap (fun '((d', name), _) => if decide (d' = d) then Some name else None)
       (map_to_list fs).

(** [for file_name in files: ...]; [o] supplies what the outside does
    while each file is handled. *)
Fixpoint for_files (o : string -> env) (files : list string) : M unit :=
  match files with
  | [] => ret tt
  | file_name :: rest =>
      let file_path := join INPUT_DIR file_name in
      if PyStr.startswith "." file_name then for_files o rest
      else
        success ← process_file (o file_name) file_path;
        (if (success : bool)
         then move_file (e_move_now (o file_name)) file_path PROCESSED_DIR
         else move_file (e_move_now (o file_name)) file_path ERRORS_DIR) ;;
        for_files o rest
  end.

(** The [try] block of one turn of [while True] with its
    [except Exception] clause: list, handle each file; an exception that
    escapes is logged and the turn ends.  The interrupt from the keyboard,
    which the other [except] clause turns into [break], and the two
    [time.sleep] calls are outside this model. *)
Definition poll_cycle (o : string -> env) : M unit :=
  try_except
    (fun w => for_files o (listdir INPUT_DIR (w_fs w)) w)
    (fun _ => ret tt).

End Pipeline.

(** ** Worlds for the examples *)

Definition noon : datetime := mk_datetime 2024 1 1 12 0 0.

Definition calm : env := mk_env no_faults noon noon.

(** The connection is lost during the insert: [executemany] raises
    after one row and so does [rollback]. *)
Definition connection_lost : env :=
  mk_env (mk_faults false false false (Some 1) false true false) noon noon.

(** [executemany] raises after one row; the connection stays usable. *)
Definition insert_fails : env :=
  mk_env (mk_faults false false false (Some 1) false false false) noon noon.

Definition readings : list (list string) :=
  [["id"; "amount"; "date"];
   ["1"; "10.5"; "2024-01-01"];
   ["2"; EmptyString; "2024-01-02"]].

Definition two_inputs : world :=
  mk_world
    (<[join INPUT_DIR "a.csv" := readings]>
       (<[join INPUT_DIR "b.csv" := [["x"]; ["7"]]]> ∅))
    None None [].

(** A file with a header row and blank lines only. *)
Definition header_only : world :=
  mk_world (<[join INPUT_DIR "empty.csv" := [["id"; "amount"]; []; []]]> ∅)
    None None [].

Definition crowded_destination : world :=
  mk_world
    (<[join INPUT_DIR "a.csv" := [["new"]]]>
       (<[join PROCESSED_DIR "a.csv" := [["old"]]]>
          (<[join PROCESSED_DIR "a_20240101_120000.csv" := [["older"]]]> ∅)))
    None None [].

(** ** Notions used in the statements *)

(** What the [try] body has read when it reaches [connect]. *)
Definition read_loaded (e : env) (file_path : directory * string) (w : world)
  : result loaded :=
  if f_open (e_faults e) then Raise OSError
  else match w_fs w !! file_path with
       | Some records => load_csv file_path (e_now e) records
       | None => Raise OSError
       end.

(** From [w] to [w2] the files and the committed table are the same, an
    open connection is still open, and the trace has only grown. *)
Definition keeps (w w2 : world) : Prop :=
  w_fs w2 = w_fs w /\
  w_db w2 = w_db w /\
  (is_Some (w_conn w) -> is_Some (w_conn w2)) /\
  exists calls, w_trace w2 = w_trace w ++ calls.

(** A row as step 1 builds it: [n] data cells, then the metadata. *)
Definition row_shape (n : nat) (row : list value) : Prop :=
  exists (cells : list (option string)) (meta : list value),
    length cells = n /\ row = map of_cell cells ++ meta.

(** A data column headed like a metadata column, with numbers in it. *)
Definition shadowing : list (list string) :=
  [["Source Filename"; "Import Timestamp"; "v"];
   ["1"; "2"; "x"];
   ["3.5"; "4"; "y"]].

(** ** Configuration *)

(** The dictionary literal of [load_env_config]; the password has no
    default. *)
Definition default_config : gmap string (option string) :=
  <["DB_HOST" := Some "localhost"]>
    (<["DB_PORT" := Some "5432"]>
       (<["DB_NAME" := Some "ISP-DB"]>
          (<["DB_USER" := Some "postgres"]>
             (<["DB_PASS" := None]> ∅)))).

(** [line.split('=', 1)] on a line that holds an equals sign: what is
    before the first one and what is after it; [None] when ['=' in line]
    is false. *)
Fixpoint split_eq (line : string) : option (string * string) :=
  match line with
  | EmptyString => None
  | String c rest =>
      if Ascii.eqb c "=" then Some (EmptyString, rest)
      else match split_eq rest with
           | Some (key, val) => Some (String c key, val)
           | None => None
           end
  end.

(** What a line of the file assigns, if anything: the body of the
    [for line in f] loop up to the dictionary update. *)
Definition line_assignment (line : string) : option (string * string) :=
  let line := PyStr.strip line in
  if String.eqb line EmptyString || PyStr.startswith "#" line then None
  else match split_eq line with
       | Some (key, val) => Some (PyStr.strip key, PyStr.strip val)
       | None => None
       end.

(** One turn of the [for line in f] loop. *)
Definition config_line (config : gmap string (option string)) (line : string)
  : gmap string (option string) :=
  match line_assignment line with
  | Some (key, val) => <[key := Some val]> config
  | None => config
  end.

(** [load_env_config()].  [env_file] is [None] when the file does not
    exist, and otherwise the lines the file gives before it ends or the
    read raises (the [except] clause keeps what was assigned so far). *)
Definition load_env_config (env_file : option (list string))
  : gmap string (option string) :=
  match env_file with
  | Some lines => fold_left config_line lines default_config
  | None => default_config
  end.

(** [os.getenv(key, default)] *)
Definition getenv (environ : gmap string string) (key : string)
    (default : option string) : option string :=
  match environ !! key with
  | Some v => Some v
  | None => default
  end.

(** A module-level setting such as
    [DB_HOST = os.getenv("DB_HOST", config["DB_HOST"])]; the outer [None]
    is the [KeyError] of the subscript, which is evaluated first. *)
Definition db_setting (environ : gmap string string)
    (config : gmap string (option string)) (key : string)
  : option (option string) :=
  match config !! key with
  | Some default => Some (getenv environ key default)
  | None => None
  end.

(** The five keys the module reads. *)
Definition config_keys : list string :=
  ["DB_HOST"; "DB_PORT"; "DB_NAME"; "DB_USER"; "DB_PASS"].

(** ** Further notions used in the statements *)

Definition is_paren (c : ascii) : bool := Ascii.eqb c "(" || Ascii.eqb c ")".

Definition not_dot (c : ascii) : bool := negb (Ascii.eqb c ".").

(** The field ranges of a [datetime]. *)
Definition valid_datetime (d : datetime) : Prop :=
  1 <= dt_year d < 100 * 100 /\ 1 <= dt_month d <= 12 /\ 1 <= dt_day d <= 31 /\
  dt_hour d < 24 /\ dt_minute d < 60 /\ dt_second d < 60.

(** The committed table once the rows of a file went in: created with
    the file's columns when there was none, otherwise the old table with
    the rows after its own. *)
Definition table_after (db : option table) (columns : list (string * sql_type))
    (rows : list (list value)) : table :=
  match db with
  | None => mk_table columns rows
  | Some t => mk_table (t_columns t) (t_rows t ++ rows)
  end.

(** The existing table, if any, has as many columns as the file has
    headers. *)
Definition table_fits (db : option table) (ld : loaded) : Prop :=
  match db with
  | None => True
  | Some t => length (t_columns t) = length (headers ld)
  end.

(** A record with at least one cell: [not row] is false. *)
Definition nonblank (row : list string) : bool :=
  negb (Nat.eqb (length row) 0).

(** [file_name.startswith('.')] is false. *)
Definition visible (file_name : string) : bool :=
  negb (PyStr.startswith "." file_name).

(** Only [close] raises. *)
Definition close_fails : env :=
  mk_env (mk_faults false false false None false false true) noon noon.

(** A table made from a file with another number of columns. *)
Definition narrow_table : table :=
  mk_table [("x", TEXT); ("source_filename", TEXT); ("import_timestamp", TIMESTAMP)]
           [[VStr "0"; VStr "old.csv"; VTime noon]].

(** The table a transaction sees after CREATE TABLE IF NOT EXISTS. *)
Definition created (view : option table) (columns : list (string * sql_type))
  : table :=
  match view with
  | Some t => t
  | None => mk_table columns []
  end.

(** ** The Header Normalizer, character by character *)









(* ================================================================== *)
(** * Part II: properties *)
(* ================================================================== *)

(** ** Characters *)

Ltac by_char c := destruct c as [[] [] [] [] [] [] [] []]; vm_compute; try reflexivity; try congruence.

Lemma lower_char_idem c : PyStr.lower_char (PyStr.lower_char c) = PyStr.lower_char c.
Proof. by_char c. Qed.

Lemma isspace_lower_char c : PyStr.isspace (PyStr.lower_char c) = PyStr.isspace c.
Proof. by_char c. Qed.

(** ** Strings *)

Lemma sforall_app P a b :
  PyStr.sforall P (a +:+ b) = PyStr.sforall P a && PyStr.sforall P b.
Proof.
  induction a as [|c a IH]; simpl; [reflexivity|].
  rewrite IH. apply andb_assoc.
Qed.

Lemma sforall_impl (P Q : ascii -> bool) s :
  (forall c, P c = true -> Q c = true) ->
  PyStr.sforall P s = true -> PyStr.sforall Q s = true.
Proof.
  intros HPQ. induction s as [|c s IH]; simpl; [reflexivity|].
  intros [Hc Hs]%andb_true_iff. rewrite (HPQ _ Hc), (IH Hs). reflexivity.
Qed.

Lemma lower_is_lowered s : PyStr.sforall is_lowered (PyStr.lower s) = true.
Proof.
  induction s as [|c s IH]; simpl; [reflexivity|].
  rewrite IH, andb_true_r. unfold is_lowered.
  rewrite lower_char_idem. apply Ascii.eqb_refl.
Qed.

Lemma lower_fixed s :
  PyStr.sforall is_lowered s = true -> PyStr.lower s = s.
Proof.
  induction s as [|c s IH]; simpl; [reflexivity|].
  intros [Hc Hs]%andb_true_iff. apply Ascii.eqb_eq in Hc.
  rewrite Hc, (IH Hs). reflexivity.
Qed.

Lemma lstrip_lower s : PyStr.lstrip (PyStr.lower s) = PyStr.lower (PyStr.lstrip s).
Proof.
  induction s as [|c s IH]; simpl; [reflexivity|].
  rewrite isspace_lower_char. destruct (PyStr.isspace c); [exact IH | reflexivity].
Qed.

Lemma rstrip_lower s : PyStr.rstrip (PyStr.lower s) = PyStr.lower (PyStr.rstrip s).
Proof.
  induction s as [|c s IH]; simpl; [reflexivity|].
  rewrite IH. destruct (PyStr.rstrip s); simpl; [|reflexivity].
  rewrite isspace_lower_char. destruct (PyStr.isspace c); reflexivity.
Qed.

Lemma strip_lower s : PyStr.strip (PyStr.lower s) = PyStr.lower (PyStr.strip s).
Proof. unfold PyStr.strip. rewrite lstrip_lower. apply rstrip_lower. Qed.

Lemma lstrip_sforall P s :
  PyStr.sforall P s = true -> PyStr.sforall P (PyStr.lstrip s) = true.
Proof.
  induction s as [|c s IH]; simpl; [reflexivity|].
  intros H. destruct (PyStr.isspace c); [|exact H].
  apply andb_true_iff in H as [_ H]. exact (IH H).
Qed.

Lemma rstrip_sforall P s :
  PyStr.sforall P s = true -> PyStr.sforall P (PyStr.rstrip s) = true.
Proof.
  induction s as [|c s IH]; simpl; [reflexivity|].
  intros [Hc Hs]%andb_true_iff. specialize (IH Hs).
  destruct (PyStr.rstrip s) as [|d r].
  - destruct (PyStr.isspace c); simpl; [reflexivity|]. rewrite Hc. reflexivity.
  - change (P c && PyStr.sforall P (String d r) = true). rewrite Hc, IH. reflexivity.
Qed.

Lemma strip_sforall P s :
  PyStr.sforall P s = true -> PyStr.sforall P (PyStr.strip s) = true.
Proof. intros H. apply rstrip_sforall, lstrip_sforall, H. Qed.

(** A replacement moves a string from one character class to another
    when the replaced character is the only obstacle. *)
Lemma replace_forall (P Q : ascii -> bool) old new s :
  (forall c, P c = true -> Ascii.eqb c old = false -> Q c = true) ->
  PyStr.sforall Q new = true ->
  PyStr.sforall P s = true ->
  PyStr.sforall Q (PyStr.replace old new s) = true.
Proof.
  intros Hstep Hnew. induction s as [|c s IH]; simpl; [reflexivity|].
  intros [Hc Hs]%andb_true_iff.
  destruct (Ascii.eqb c old) eqn:E.
  - rewrite sforall_app, Hnew, (IH Hs). reflexivity.
  - simpl. rewrite (Hstep c Hc E), (IH Hs). reflexivity.
Qed.

Lemma replace_absent old new s :
  PyStr.sforall (fun c => negb (Ascii.eqb c old)) s = true ->
  PyStr.replace old new s = s.
Proof.
  induction s as [|c s IH]; simpl; [reflexivity|].
  intros [Hc Hs]%andb_true_iff.
  apply negb_true_iff in Hc. rewrite Hc, (IH Hs). reflexivity.
Qed.

Lemma cleared_step k old c :
  nth_error structural_chars k = Some old ->
  cleared k c = true -> Ascii.eqb c old = false -> cleared (S k) c = true.
Proof.
  intros Hk.
  do 7 (destruct k as [|k]; [injection Hk as <-; by_char c|]).
  destruct k; discriminate.
Qed.

(** ** Header Normalizer *)

Lemma substitutions_name_chars s :
  PyStr.sforall is_lowered s = true ->
  PyStr.sforall name_char (substitutions s) = true.
Proof.
  intros Hs. unfold substitutions, name_char.
  repeat (eapply replace_forall;
          [ intros c; apply cleared_step; reflexivity | reflexivity | ]).
  eapply sforall_impl; [|exact Hs].
  intros c Hc. unfold cleared. simpl. rewrite Hc. reflexivity.
Qed.

Lemma clean_name_name_chars name :
  PyStr.sforall name_char (clean_name name) = true.
Proof.
  destruct name as [[|c s]|]; [reflexivity| |reflexivity].
  apply substitutions_name_chars, lower_is_lowered.
Qed.

Lemma name_char_not_structural k old c :
  nth_error structural_chars k = Some old ->
  name_char c = true -> negb (Ascii.eqb c old) = true.
Proof.
  intros Hk.
  do 7 (destruct k as [|k]; [injection Hk as <-; by_char c|]).
  destruct k; discriminate.
Qed.

Lemma replace_structural_fixed k old new s :
  nth_error structural_chars k = Some old ->
  PyStr.sforall name_char s = true -> PyStr.replace old new s = s.
Proof.
  intros Hk Hs. apply replace_absent.
  eapply sforall_impl; [|exact Hs].
  intros c. exact (name_char_not_structural k old c Hk).
Qed.

Lemma substitutions_fixed s :
  PyStr.sforall name_char s = true -> substitutions s = s.
Proof.
  intros Hs. unfold substitutions.
  rewrite (replace_structural_fixed 0 _ _ s eq_refl Hs).
  rewrite (replace_structural_fixed 1 _ _ s eq_refl Hs).
  rewrite (replace_structural_fixed 2 _ _ s eq_refl Hs).
  rewrite (replace_structural_fixed 3 _ _ s eq_refl Hs).
  rewrite (replace_structural_fixed 4 _ _ s eq_refl Hs).
  rewrite (replace_structural_fixed 5 _ _ s eq_refl Hs).
  exact (replace_structural_fixed 6 _ _ s eq_refl Hs).
Qed.

Lemma name_char_lowered c : name_char c = true -> is_lowered c = true.
Proof. unfold name_char, cleared. intros [H _]%andb_true_iff. exact H. Qed.

(** C1, as amended: normalizing an already-normalized header gives the
    same name whenever that name is non-empty and has no whitespace left
    at either end. *)
Theorem clean_name_idempotent_on_trimmed (h : option string) :
  clean_name h <> EmptyString ->
  PyStr.strip (clean_name h) = clean_name h ->
  clean_name (Some (clean_name h)) = clean_name h.
Proof.
  intros Hne Htrim.
  pose proof (clean_name_name_chars h) as Hsafe.
  destruct (clean_name h) as [|c r] eqn:E; [congruence|].
  unfold clean_name at 1. rewrite Htrim.
  rewrite lower_fixed by (eapply sforall_impl; [apply name_char_lowered | exact Hsafe]).
  apply substitutions_fixed, Hsafe.
Qed.

Lemma clean_name_idempotent_on_trimmed_witness :
  clean_name (Some " Temp (C) ") <> EmptyString /\
  clean_name (Some (clean_name (Some " Temp (C) "))) = clean_name (Some " Temp (C) ").
Proof.
  split; [discriminate|].
  apply (clean_name_idempotent_on_trimmed (Some " Temp (C) ")); [discriminate | reflexivity].
Defined.

(** The converse: idempotence at [h] forces the normalized name to be
    non-empty and trimmed. *)
Lemma clean_name_idempotent_only_on_trimmed (h : option string) :
  clean_name (Some (clean_name h)) = clean_name h ->
  clean_name h <> EmptyString /\ PyStr.strip (clean_name h) = clean_name h.
Proof.
  intros Hid.
  destruct (clean_name h) as [|c r] eqn:E; [discriminate|].
  split; [discriminate|].
  pose proof (clean_name_name_chars h) as Hsafe. rewrite E in Hsafe.
  unfold clean_name in Hid. rewrite <- strip_lower in Hid.
  rewrite (lower_fixed (String c r)) in Hid
    by (eapply sforall_impl; [apply name_char_lowered | exact Hsafe]).
  rewrite substitutions_fixed in Hid by (apply strip_sforall, Hsafe).
  exact Hid.
Qed.

(** C1, counterexample: the header "()" normalizes to the empty string,
    which normalizes to the fallback constant. *)
Lemma clean_name_not_idempotent :
  ~ (forall h : option string, clean_name (Some (clean_name h)) = clean_name h).
Proof. intros H. specialize (H (Some "()")). discriminate H. Qed.

















(** ** Value Normalizer *)

Lemma str_in_In v l : str_in v l = true <-> In v l.
Proof.
  unfold str_in. rewrite existsb_exists. split.
  - intros (x & Hx & E). apply String.eqb_eq in E. subst. exact Hx.
  - intros H. exists v. split; [exact H | apply String.eqb_refl].
Qed.

(** C4: [parse_value] gives [None] for an absent cell and for a cell
    whose trimmed form is one of the five markers, compared exactly as
    written; any other cell comes back as its trimmed string. *)
Theorem parse_value_spec (value : option string) :
  match value with
  | None => parse_value value = None
  | Some s =>
      let v := PyStr.strip s in
      (v = EmptyString \/ v = "N/A" \/ v = "n/a" \/ v = "NaN" \/ v = "nan")
        /\ parse_value value = None
      \/
      ~ (v = EmptyString \/ v = "N/A" \/ v = "n/a" \/ v = "NaN" \/ v = "nan")
        /\ parse_value value = Some v
  end.
Proof.
  destruct value as [s|]; [|reflexivity].
  unfold parse_value. cbv zeta.
  destruct (str_in (PyStr.strip s) null_markers) eqn:E.
  - left. split; [|reflexivity].
    apply str_in_In in E. simpl in E.
    destruct E as [E|[E|[E|[E|[E|[]]]]]]; symmetry in E; tauto.
  - right. split; [|reflexivity].
    intros H. apply not_true_iff_false in E. apply E, str_in_In. simpl.
    destruct H as [H|[H|[H|[H|H]]]]; symmetry in H; tauto.
Qed.

(** The match is case-sensitive and nothing is coerced. *)
Example parse_value_examples :
  parse_value (Some "  N/A ") = None /\
  parse_value (Some "NAN") = Some "NAN" /\
  parse_value (Some "N/a") = Some "N/a" /\
  parse_value (Some " 1.50 ") = Some "1.50" /\
  parse_value (Some "   ") = None.
Proof. repeat split. Qed.

(** ** Type Inferrer *)

Lemma startswith_spec p s :
  PyStr.startswith p s = true <-> exists post, s = p +:+ post.
Proof.
  revert s. induction p as [|a p IH]; intros s; simpl.
  - split; [intros _; exists s; reflexivity | reflexivity].
  - destruct s as [|b s].
    + split; [discriminate | intros [post H]; discriminate].
    + rewrite andb_true_iff, Ascii.eqb_eq, IH. split.
      * intros [-> [post ->]]. exists post. reflexivity.
      * intros [post H]. injection H as -> ->. split; [reflexivity | eauto].
Qed.

Lemma contains_spec sub s :
  PyStr.contains sub s = true <-> exists pre post, s = pre +:+ sub +:+ post.
Proof.
  induction s as [|c s IH].
  - simpl. rewrite orb_false_r, startswith_spec. split.
    + intros [post H]. exists EmptyString, post. exact H.
    + intros (pre & post & H). destruct pre; [eauto | discriminate].
  - cbn [PyStr.contains]. rewrite orb_true_iff, startswith_spec, IH. split.
    + intros [[post H] | (pre & post & H)].
      * exists EmptyString, post. exact H.
      * exists (String c pre), post. rewrite H. reflexivity.
    + intros (pre & post & H). destruct pre as [|d pre].
      * left. exists post. exact H.
      * right. injection H as -> ->. eauto.
Qed.

Lemma scan_values_cells float_ok cells has_data :
  scan_values float_ok (map of_cell cells) has_data
  = Ok (forallb (cell_numeric float_ok) cells,
        has_data || existsb (fun c => bool_decide (c <> None)) cells).
Proof.
  revert has_data. induction cells as [|[s|] cells IH]; intros has_data; simpl.
  - rewrite orb_false_r. reflexivity.
  - destruct (float_ok s); simpl.
    + rewrite IH. rewrite orb_true_r. reflexivity.
    + rewrite orb_true_r. reflexivity.
  - apply IH.
Qed.

Lemma forallb_cell_numeric float_ok cells :
  forallb (cell_numeric float_ok) cells = true
  <-> forall s, In (Some s) cells -> float_ok s = true.
Proof.
  rewrite forallb_forall. split.
  - intros H s Hs. exact (H _ Hs).
  - intros H [s|] Hs; [exact (H _ Hs) | reflexivity].
Qed.

Lemma existsb_non_null (cells : list (option string)) :
  existsb (fun c => bool_decide (c <> None)) cells = true
  <-> exists s, In (Some s) cells.
Proof.
  rewrite existsb_exists. split.
  - intros ([s|] & Hin & Hx); [eauto | ].
    apply bool_decide_eq_true in Hx. congruence.
  - intros [s Hs]. exists (Some s). split; [exact Hs | reflexivity].
Qed.

(** C2: the priority order of [infer_sql_type] on a normalized header
    and the normalized values of its column: a name containing "date" or
    "time" gives TIMESTAMP; otherwise at least one non-null value, all of
    them accepted by [float], gives DOUBLE PRECISION; otherwise (also
    with no non-null value at all) TEXT. *)
Theorem infer_sql_type_priority (float_ok : string -> bool)
    (header_name : string) (cells : list (option string)) :
  let temporal :=
    (exists pre post, header_name = pre +:+ "date" +:+ post) \/
    (exists pre post, header_name = pre +:+ "time" +:+ post) in
  let numeric :=
    (exists s, In (Some s) cells) /\
    (forall s, In (Some s) cells -> float_ok s = true) in
  let inferred := infer_sql_type float_ok header_name (map of_cell cells) in
  (temporal -> inferred = Ok TIMESTAMP) /\
  (~ temporal -> numeric -> inferred = Ok DOUBLE_PRECISION) /\
  (~ temporal -> ~ numeric -> inferred = Ok TEXT).
Proof.
  cbv zeta. unfold infer_sql_type.
  rewrite <- !contains_spec, <- orb_true_iff.
  rewrite scan_values_cells. simpl.
  rewrite <- forallb_cell_numeric, <- existsb_non_null, <- andb_true_iff.
  destruct (PyStr.contains "date" header_name || PyStr.contains "time" header_name).
  - split; [reflexivity|]. split; intros H; exfalso; apply H; reflexivity.
  - split; [discriminate|].
    destruct (existsb _ cells && forallb _ cells); split; intros _ H;
      try reflexivity; congruence.
Qed.

Lemma infer_sql_type_priority_witness :
  infer_sql_type decimal_literal "test_date"
    (map of_cell [Some "2024-01-01"; Some "2024-01-02"]) = Ok TIMESTAMP /\
  infer_sql_type decimal_literal "amount"
    (map of_cell [Some "1.5"; Some "2"; None]) = Ok DOUBLE_PRECISION /\
  infer_sql_type decimal_literal "amount"
    (map of_cell [Some "1.5"; Some "abc"]) = Ok TEXT /\
  infer_sql_type decimal_literal "notes" (map of_cell [None; None]) = Ok TEXT.
Proof.
  assert (Hplain : forall h, PyStr.contains "date" h = false ->
                             PyStr.contains "time" h = false ->
            ~ ((exists pre post, h = pre +:+ "date" +:+ post) \/
               (exists pre post, h = pre +:+ "time" +:+ post))).
  { intros h Hd Ht [H|H]; apply contains_spec in H; congruence. }
  split; [|split; [|split]].
  - apply (infer_sql_type_priority decimal_literal "test_date"
             [Some "2024-01-01"; Some "2024-01-02"]).
    left. exists "test_", EmptyString. reflexivity.
  - apply (infer_sql_type_priority decimal_literal "amount"
             [Some "1.5"; Some "2"; None]).
    + apply Hplain; reflexivity.
    + split.
      * exists "1.5". left. reflexivity.
      * intros s [E|[E|[E|[]]]]; inversion E; reflexivity.
  - apply (infer_sql_type_priority decimal_literal "amount"
             [Some "1.5"; Some "abc"]).
    + apply Hplain; reflexivity.
    + intros [_ H]. specialize (H "abc" (or_intror (or_introl eq_refl))).
      discriminate H.
  - apply (infer_sql_type_priority decimal_literal "notes" [None; None]).
    + apply Hplain; reflexivity.
    + intros [[s [E|[E|[]]]] _]; discriminate E.
Defined.

(** ** CSV Loader *)

Lemma map_parse_value_repeat_None k :
  map parse_value (repeat None k) = repeat None k.
Proof. induction k as [|k IH]; simpl; [reflexivity | rewrite IH; reflexivity]. Qed.

Lemma clean_cells_eq n (row : list string) :
  clean_cells n row
  = map (fun c => parse_value (Some c)) (firstn n row)
    ++ repeat None (n - length row).
Proof.
  unfold clean_cells, pad_row.
  destruct (Nat.ltb (length row) n) eqn:E.
  - apply Nat.ltb_lt in E.
    rewrite firstn_app, length_map, firstn_all2 by (rewrite length_map; lia).
    rewrite (firstn_all2 (repeat None (n - length row)))
      by (rewrite repeat_length; lia).
    rewrite map_app, map_map, map_parse_value_repeat_None.
    rewrite (firstn_all2 row) by lia. reflexivity.
  - apply Nat.ltb_ge in E.
    replace (n - length row) with 0 by lia. cbn [repeat]. rewrite app_nil_r.
    rewrite firstn_map, map_map. reflexivity.
Qed.

Lemma clean_cells_length n (row : list string) : length (clean_cells n row) = n.
Proof.
  rewrite clean_cells_eq, length_app, length_map, length_firstn, repeat_length.
  lia.
Qed.

(** C5: a data row is reconciled with the header: a shorter row is
    padded with null at the end, a row of the same length or longer
    contributes only its first N cells, N the number of headers; every
    cell kept goes through [parse_value]. *)
Theorem clean_cells_pad_or_truncate (header row : list string) :
  let n := length header in
  length (clean_cells n row) = n /\
  (length row < n ->
     clean_cells n row
     = map (fun c => parse_value (Some c)) row ++ repeat None (n - length row)) /\
  (n <= length row ->
     clean_cells n row = map (fun c => parse_value (Some c)) (firstn n row)).
Proof.
  cbv zeta. split; [apply clean_cells_length|]. split; intros H.
  - rewrite clean_cells_eq, firstn_all2 by lia. reflexivity.
  - rewrite clean_cells_eq. replace (length header - length row) with 0 by lia.
    apply app_nil_r.
Qed.

Lemma clean_cells_pad_or_truncate_witness :
  nth_error (clean_cells 3 ["1"; "x"]) 2 = Some None /\
  clean_cells 3 ["1"; "2"; "3"; "4"; "5"] = [Some "1"; Some "2"; Some "3"].
Proof.
  destruct (clean_cells_pad_or_truncate ["a"; "b"; "c"] ["1"; "x"]) as (_ & Hpad & _).
  destruct (clean_cells_pad_or_truncate ["a"; "b"; "c"] ["1"; "2"; "3"; "4"; "5"])
    as (_ & _ & Hcut).
  specialize (Hpad ltac:(simpl; lia)). specialize (Hcut ltac:(simpl; lia)).
  cbn [length] in Hpad, Hcut.
  split.
  - rewrite Hpad. reflexivity.
  - rewrite Hcut. reflexivity.
Defined.

Lemma read_rows_spec n filename now rows acc :
  read_rows n filename now rows acc
  = acc ++ map (cleaned_row n filename now)
             (filter (fun r => negb (Nat.eqb (length r) 0)) rows).
Proof.
  revert acc. induction rows as [|[|c row] rows IH]; intros acc.
  - simpl. rewrite app_nil_r. reflexivity.
  - simpl. apply IH.
  - cbn [read_rows]. rewrite IH. simpl. rewrite <- app_assoc. reflexivity.
Qed.

(** What step 1 leaves behind: the header list and the shape of every
    row. *)
Lemma load_csv_shape (file_path : directory * string) (now : datetime)
    (records : list (list string)) (ld : loaded) :
  load_csv file_path now records = Ok ld ->
  headers ld
  = map (fun h => clean_name (Some h)) (original_headers ld)
    ++ ["source_filename"; "import_timestamp"] /\
  forall row, In row (raw_data ld) ->
    exists cells : list (option string),
      length cells = length (original_headers ld) /\
      row = map of_cell cells ++ [VStr (basename file_path); VTime now].
Proof.
  unfold load_csv. destruct records as [|original rows]; [discriminate|].
  destruct (read_rows _ _ _ rows []) as [|r0 rs] eqn:E; [discriminate|].
  intros [= <-]. cbn [headers original_headers raw_data].
  split; [rewrite <- app_assoc; reflexivity|].
  rewrite <- E, read_rows_spec. cbn [app]. intros row Hrow.
  apply in_map_iff in Hrow as (raw & <- & _).
  exists (clean_cells (length original) raw). split.
  - apply clean_cells_length.
  - unfold cleaned_row. rewrite <- app_assoc. reflexivity.
Qed.

(** C7: after step 1 the header list is the normalized data headers
    followed by source_filename and import_timestamp, and every row is
    its N data cells followed by exactly the file name and the single
    [now] of this file, in that order. *)
Theorem rows_carry_metadata (file_path : directory * string) (now : datetime)
    (records : list (list string)) (ld : loaded) :
  load_csv file_path now records = Ok ld ->
  headers ld
  = map (fun h => clean_name (Some h)) (original_headers ld)
    ++ ["source_filename"; "import_timestamp"] /\
  forall row, In row (raw_data ld) ->
    exists cells : list (option string),
      length cells = length (original_headers ld) /\
      row = map of_cell cells ++ [VStr (basename file_path); VTime now].
Proof. apply load_csv_shape. Qed.

Lemma rows_carry_metadata_witness :
  exists ld,
    load_csv (join INPUT_DIR "a.csv") noon readings = Ok ld /\
    headers ld = ["id"; "amount"; "date"; "source_filename"; "import_timestamp"] /\
    forall row, In row (raw_data ld) ->
      exists cells : list (option string),
        length cells = 3 /\
        row = map of_cell cells ++ [VStr "a.csv"; VTime noon].
Proof.
  eexists. split; [reflexivity|].
  destruct (rows_carry_metadata (join INPUT_DIR "a.csv") noon readings _ eq_refl)
    as [Hh Hrows].
  split; [exact Hh | exact Hrows].
Defined.


(** ** File Router *)

Lemma app_String c a b : String c a +:+ b = String c (a +:+ b).
Proof. reflexivity. Qed.

Lemma slength_app a b :
  String.length (a +:+ b) = String.length a + String.length b.
Proof.
  induction a as [|c a IH]; [reflexivity|].
  rewrite app_String. cbn [String.length]. rewrite IH. reflexivity.
Qed.

Lemma split_last_dot_app s before ext :
  split_last_dot s = Some (before, ext) -> s = before +:+ ext.
Proof.
  revert before ext. induction s as [|c s IH]; intros before ext; simpl; [discriminate|].
  destruct (split_last_dot s) as [[b e]|].
  - intros [= <- <-]. rewrite app_String, (IH b e eq_refl). reflexivity.
  - destruct (Ascii.eqb c "."); [|discriminate].
    intros [= <- <-]. reflexivity.
Qed.

Lemma append_empty_r s : s +:+ EmptyString = s.
Proof.
  induction s as [|c s IH]; [reflexivity|].
  rewrite app_String, IH. reflexivity.
Qed.

Lemma splitext_app filename :
  filename = fst (splitext filename) +:+ snd (splitext filename).
Proof.
  unfold splitext. destruct (split_last_dot filename) as [[b e]|] eqn:E.
  - destruct (PyStr.sforall _ b); simpl.
    + symmetry. apply append_empty_r.
    + apply split_last_dot_app, E.
  - simpl. symmetry. apply append_empty_r.
Qed.

Lemma strftime_length d : String.length (strftime d) = 15.
Proof. reflexivity. Qed.

Lemma disambiguated_length now filename :
  String.length (disambiguated now filename) = String.length filename + 16.
Proof.
  unfold disambiguated. rewrite (splitext_app filename) at 2.
  destruct (splitext filename) as [base ext]. simpl fst. simpl snd.
  rewrite !slength_app, strftime_length. cbn [String.length]. lia.
Qed.

Lemma disambiguated_fresh now filename : disambiguated now filename <> filename.
Proof.
  intros H. apply (f_equal String.length) in H.
  rewrite disambiguated_length in H. lia.
Qed.

Lemma is_digit_digit n : is_digit (digit n) = true.
Proof.
  unfold digit. pose proof (Nat.mod_upper_bound n 10 ltac:(lia)) as Hlt.
  remember (n mod 10) as k eqn:Ek. clear Ek.
  do 10 (destruct k as [|k]; [reflexivity|]). lia.
Qed.

Lemma strftime_shape d : timestamp_shape (strftime d) = true.
Proof.
  cbv [timestamp_shape strftime four_digits two_digits String.append
       list_ascii_of_string forallb].
  rewrite !is_digit_digit. reflexivity.
Qed.

(** [move_file] never raises, makes exactly one [shutil.move] call, and
    that call goes to [destination]. *)
Lemma move_file_run now file_path dest_dir w :
  move_file now file_path dest_dir w
  = let dst := destination now file_path dest_dir (w_fs w) in
    let w1 := record (EvMove file_path dst) w in
    (Ok tt,
     match w_fs w !! file_path with
     | Some content => set_fs (<[dst := content]> (delete file_path (w_fs w))) w1
     | None => w1
     end).
Proof.
  unfold move_file, try_except, destination, mbind, M_bind, bind, path_exists,
    shutil_move.
  cbn [w_fs record].
  destruct (bool_decide _); cbn [w_fs record];
    destruct (w_fs w !! file_path); reflexivity.
Qed.

(** C8, as amended: when the file name is already taken in the
    destination directory, [move_file] makes one [shutil.move] call, to
    the base name followed by an underscore, the YYYYMMDD_HHMMSS stamp of
    the move and the extension; the file that had the name is left as it
    was, and nothing in the world but the source path and the path of the
    new name changes. *)
Theorem move_file_on_collision (now : datetime) (name : string)
    (dest_dir : directory) (content : list (list string)) (w : world) :
  dest_dir <> INPUT_DIR ->
  w_fs w !! join INPUT_DIR name = Some content ->
  is_Some (w_fs w !! join dest_dir name) ->
  let renamed :=
    fst (splitext name) +:+ "_" +:+ strftime now +:+ snd (splitext name) in
  let out := move_file now (join INPUT_DIR name) dest_dir w in
  timestamp_shape (strftime now) = true /\
  name = fst (splitext name) +:+ snd (splitext name) /\
  fst out = Ok tt /\
  w_trace (snd out)
  = w_trace w ++ [EvMove (join INPUT_DIR name) (join dest_dir renamed)] /\
  w_fs (snd out) !! join dest_dir renamed = Some content /\
  w_fs (snd out) !! join INPUT_DIR name = None /\
  w_fs (snd out) !! join dest_dir name = w_fs w !! join dest_dir name /\
  (forall p, p <> join INPUT_DIR name -> p <> join dest_dir renamed ->
             w_fs (snd out) !! p = w_fs w !! p) /\
  w_db (snd out) = w_db w.
Proof.
  intros Hdir Hsrc Htaken. cbv zeta.
  assert (Hren : disambiguated now name
                 = fst (splitext name) +:+ "_" +:+ strftime now +:+ snd (splitext name)).
  { unfold disambiguated. destruct (splitext name); reflexivity. }
  rewrite <- Hren.
  assert (Hdst : destination now (join INPUT_DIR name) dest_dir (w_fs w)
                 = join dest_dir (disambiguated now name)).
  { unfold destination. cbn [basename join snd].
    rewrite bool_decide_eq_true_2 by exact Htaken. reflexivity. }
  rewrite move_file_run. cbv zeta. rewrite Hdst, Hsrc. cbn [fst snd].
  unfold join in *.
  assert (Hne1 : (INPUT_DIR, name) <> (dest_dir, disambiguated now name)) by congruence.
  assert (Hne2 : (dest_dir, disambiguated now name) <> (dest_dir, name)).
  { intros [= H]. exact (disambiguated_fresh _ _ H). }
  assert (Hne3 : (INPUT_DIR, name) <> (dest_dir, name)) by congruence.
  split; [apply strftime_shape|].
  split; [apply splitext_app|].
  split; [reflexivity|].
  split; [reflexivity|].
  cbn [w_fs w_db set_fs record].
  split; [apply lookup_insert_eq|].
  split; [rewrite lookup_insert_ne, lookup_delete_eq by congruence; reflexivity|].
  split; [rewrite lookup_insert_ne, lookup_delete_ne by congruence; reflexivity|].
  split; [|reflexivity].
  intros p Hp1 Hp2.
  rewrite lookup_insert_ne, lookup_delete_ne by congruence. reflexivity.
Qed.

Lemma move_file_on_collision_witness :
  let out := move_file noon (join INPUT_DIR "a.csv") PROCESSED_DIR crowded_destination in
  w_fs (snd out) !! join PROCESSED_DIR "a.csv" = Some [["old"]] /\
  w_trace (snd out)
  = [EvMove (join INPUT_DIR "a.csv") (join PROCESSED_DIR "a_20240101_120000.csv")].
Proof.
  destruct (move_file_on_collision noon "a.csv" PROCESSED_DIR [["new"]]
              crowded_destination)
    as (_ & _ & _ & Htrace & _ & _ & Hkept & _).
  - discriminate.
  - reflexivity.
  - exists [["old"]]. reflexivity.
  - split; [rewrite Hkept; reflexivity | exact Htrace].
Defined.

(** C8, counterexample: a file that already carries the disambiguated
    name is replaced by the move. *)
Lemma move_file_overwrites_stamped_name :
  let stamped := join PROCESSED_DIR "a_20240101_120000.csv" in
  let out := move_file noon (join INPUT_DIR "a.csv") PROCESSED_DIR crowded_destination in
  is_Some (w_fs crowded_destination !! join PROCESSED_DIR "a.csv") /\
  w_fs crowded_destination !! stamped = Some [["older"]] /\
  w_fs (snd out) !! stamped = Some [["new"]].
Proof. split; [exists [["old"]]; reflexivity | split; reflexivity]. Qed.

(** ** [process_file] *)

Lemma load_and_connect_run e file_path w :
  load_and_connect e file_path w
  = match read_loaded e file_path w with
    | Raise ex => (Raise ex, w)
    | Ok ld =>
        if f_connect (e_faults e)
        then (Raise ConnectionError, record (EvConnect false) w)
        else (Ok ld, set_conn (Some (w_db w)) (record (EvConnect true) w))
    end.
Proof.
  unfold load_and_connect, read_loaded, mbind, M_bind, bind, open_csv, lift,
    connect, ret.
  destruct (f_open (e_faults e)); [reflexivity|].
  destruct (w_fs w !! file_path) as [records|]; [|reflexivity].
  destruct (load_csv file_path (e_now e) records); [|reflexivity].
  destruct (f_connect (e_faults e)); reflexivity.
Qed.

Lemma keeps_refl w : keeps w w.
Proof.
  repeat split; auto. exists []. symmetry. apply app_nil_r.
Qed.

Lemma keeps_trans w1 w2 w3 : keeps w1 w2 -> keeps w2 w3 -> keeps w1 w3.
Proof.
  intros (Hfs1 & Hdb1 & Hc1 & m1 & Ht1) (Hfs2 & Hdb2 & Hc2 & m2 & Ht2).
  repeat split; [congruence | congruence | auto |].
  exists (m1 ++ m2). rewrite Ht2, Ht1, app_assoc. reflexivity.
Qed.

Lemma keeps_record ev w : keeps w (record ev w).
Proof. repeat split; auto. exists [ev]. reflexivity. Qed.

Lemma keeps_set_conn view w : keeps w (set_conn (Some view) w).
Proof.
  repeat split; cbn; eauto. exists []. symmetry. apply app_nil_r.
Qed.

Lemma execute_create_keeps fl columns w r w2 :
  execute_create fl columns w = (r, w2) -> keeps w w2.
Proof.
  unfold execute_create. cbv zeta.
  set (w1 := record _ w). pose proof (keeps_record (EvExecute (create_query columns)) w) as H1.
  fold w1 in H1.
  destruct (f_create fl); [intros [= <- <-]; exact H1|].
  destruct (w_conn w1) as [[t|]|]; intros [= <- <-]; try exact H1.
  eapply keeps_trans; [exact H1 | apply keeps_set_conn].
Qed.

Lemma executemany_keeps fl rows w r w2 :
  executemany fl rows w = (r, w2) -> keeps w w2.
Proof.
  unfold executemany. cbv zeta.
  set (w1 := record _ w). pose proof (keeps_record (EvExecuteMany rows) w) as H1.
  fold w1 in H1.
  destruct (w_conn w1) as [[t|]|]; try (intros [= <- <-]; exact H1).
  destruct (insert_rows (f_insert fl) rows t) as [r' t'].
  intros [= <- <-]. eapply keeps_trans; [exact H1 | apply keeps_set_conn].
Qed.

Lemma commit_raise_keeps fl w ex w2 :
  commit fl w = (Raise ex, w2) -> keeps w w2.
Proof.
  unfold commit. cbv zeta.
  destruct (f_commit fl); [intros [= <- <-]; apply keeps_record|].
  destruct (w_conn (record EvCommit w)); [discriminate|].
  intros [= <- <-]. apply keeps_record.
Qed.

Lemma commit_ok fl w w2 :
  commit fl w = (Ok tt, w2) ->
  w_fs w2 = w_fs w /\ w_conn w2 = w_conn w /\ is_Some (w_conn w) /\
  w_trace w2 = w_trace w ++ [EvCommit].
Proof.
  unfold commit. cbv zeta.
  destruct (f_commit fl); [discriminate|].
  cbn [w_conn record]. destruct (w_conn w) as [t|] eqn:E; [|discriminate].
  intros [= <-]. cbn. rewrite E. eauto.
Qed.

(** The part of the [try] body that runs with a connection: if it
    raises, the files and the committed table are as before. *)
Lemma infer_and_insert_inv float_ok e ld w r w2 :
  is_Some (w_conn w) ->
  infer_and_insert float_ok e ld w = (r, w2) ->
  w_fs w2 = w_fs w /\
  is_Some (w_conn w2) /\
  (exists calls, w_trace w2 = w_trace w ++ calls) /\
  match r with
  | Ok success => success = true
  | Raise _ => w_db w2 = w_db w
  end.
Proof.
  intros Hopen.
  unfold infer_and_insert, mbind, M_bind, bind, lift, ret.
  destruct (infer_types float_ok ld) as [tys|ex].
  2:{ intros [= <- <-]. repeat split; auto. exists []. symmetry. apply app_nil_r. }
  destruct (execute_create _ _ w) as [[[]|ex] w1] eqn:E1;
    apply execute_create_keeps in E1.
  2:{ intros [= <- <-]. destruct E1 as (? & ? & ? & ?). auto. }
  destruct (executemany _ _ w1) as [[[]|ex] w3] eqn:E2;
    apply executemany_keeps in E2;
    pose proof (keeps_trans _ _ _ E1 E2) as E3.
  2:{ intros [= <- <-]. destruct E3 as (? & ? & ? & ?). auto. }
  destruct (commit _ w3) as [[[]|ex] w4] eqn:E4.
  - intros [= <- <-]. apply commit_ok in E4 as (Hfs & Hc & Hs & Ht).
    destruct E3 as (Hfs3 & _ & Hc3 & m3 & Ht3).
    repeat split; [congruence | rewrite Hc; auto | ].
    exists (m3 ++ [EvCommit]). rewrite Ht, Ht3, app_assoc. reflexivity.
  - intros [= <- <-]. apply commit_raise_keeps in E4.
    destruct (keeps_trans _ _ _ E3 E4) as (? & ? & ? & ?). auto.
Qed.

Lemma for_files_step float_ok o name rest w success w1 :
  PyStr.startswith "." name = false ->
  process_file float_ok (o name) (join INPUT_DIR name) w = (Ok success, w1) ->
  for_files float_ok o (name :: rest) w
  = for_files float_ok o rest
      (snd (move_file (e_move_now (o name)) (join INPUT_DIR name)
              (if success then PROCESSED_DIR else ERRORS_DIR) w1)).
Proof.
  intros Hdot Hrun. cbn [for_files]. rewrite Hdot.
  unfold mbind, M_bind, bind. rewrite Hrun.
  destruct success; rewrite move_file_run; reflexivity.
Qed.

Lemma for_files_abort float_ok o name rest w ex w1 :
  PyStr.startswith "." name = false ->
  process_file float_ok (o name) (join INPUT_DIR name) w = (Raise ex, w1) ->
  for_files float_ok o (name :: rest) w = (Raise ex, w1).
Proof.
  intros Hdot Hrun. cbn [for_files]. rewrite Hdot.
  unfold mbind, M_bind, bind. rewrite Hrun. reflexivity.
Qed.

(** The [except Exception] clause of a turn catches whatever the [for]
    loop raises. *)
Lemma poll_cycle_returns float_ok o w :
  fst (poll_cycle float_ok o w) = Ok tt.
Proof.
  unfold poll_cycle, try_except, ret.
  destruct (for_files float_ok o _ w) as [[[]|ex] w1]; reflexivity.
Qed.

(** A file present in the input directory ends up at [destination]. *)
Lemma move_file_routes now name dest_dir content w :
  dest_dir <> INPUT_DIR ->
  w_fs w !! join INPUT_DIR name = Some content ->
  let w2 := snd (move_file now (join INPUT_DIR name) dest_dir w) in
  let dst := destination now (join INPUT_DIR name) dest_dir (w_fs w) in
  w_fs w2 !! join INPUT_DIR name = None /\
  w_fs w2 !! dst = Some content /\
  fst dst = dest_dir /\
  w_db w2 = w_db w /\
  w_conn w2 = w_conn w /\
  w_trace w2 = w_trace w ++ [EvMove (join INPUT_DIR name) dst].
Proof.
  intros Hdir Hsrc. cbv zeta. rewrite move_file_run. cbv zeta. rewrite Hsrc.
  cbn [snd w_fs w_db w_conn w_trace set_fs record].
  assert (Hfst : fst (destination now (join INPUT_DIR name) dest_dir (w_fs w)) = dest_dir).
  { unfold destination. destruct (bool_decide _); reflexivity. }
  split.
  { rewrite lookup_insert_ne, lookup_delete_eq; [reflexivity|].
    intros H. apply (f_equal fst) in H. rewrite Hfst in H. exact (Hdir H). }
  split; [apply lookup_insert_eq|]. auto.
Qed.

(** Whatever fails, the [rollback] and [close] calls included: the
    files are untouched; a connection that was opened gets [close] as its
    last call, on the successful path too; when the [try] body raised,
    the committed table is as it was before the file, and an opened
    connection got [rollback] and then [close] as its last two calls; and
    when [close] itself does not raise, no connection stays open. *)
Lemma process_file_cleanup (float_ok : string -> bool) (e : env)
    (file_path : directory * string) (w : world) :
  w_conn w = None ->
  let out := process_file float_ok e file_path w in
  exists calls : list event,
    w_trace (snd out) = w_trace w ++ calls /\
    w_fs (snd out) = w_fs w /\
    (In (EvConnect true) calls -> last calls = Some EvClose) /\
    ((exists ex, fst (try_body float_ok e file_path w) = Raise ex) ->
       w_db (snd out) = w_db w /\
       (In (EvConnect true) calls ->
          exists mid, calls = EvConnect true :: mid ++ [EvRollback; EvClose])) /\
    (f_close (e_faults e) = false -> w_conn (snd out) = None).
Proof.
  intros Hconn. cbv zeta.
  unfold process_file, try_body, mbind, M_bind, bind.
  rewrite load_and_connect_run.
  destruct (read_loaded e file_path w) as [ld|ex].
  2:{ exists []. cbn [fst snd]. rewrite app_nil_r.
      split; [reflexivity|]. split; [reflexivity|]. split; [intros []|].
      split; [intros _; split; [reflexivity | intros []] | intros _; exact Hconn]. }
  destruct (f_connect (e_faults e)).
  { exists [EvConnect false]. cbn [fst snd].
    assert (Hno : ~ In (EvConnect true) [EvConnect false])
      by (intros [H|[]]; discriminate H).
    split; [reflexivity|]. split; [reflexivity|].
    split; [intros H; destruct (Hno H)|].
    split; [intros _; split; [reflexivity | intros H; destruct (Hno H)]|].
    intros _. exact Hconn. }
  set (wc := set_conn (Some (w_db w)) (record (EvConnect true) w)).
  assert (Hopen : is_Some (w_conn wc)) by (cbn; eauto).
  destruct (infer_and_insert float_ok e ld wc) as [r w2] eqn:E.
  destruct (infer_and_insert_inv _ _ _ _ _ _ Hopen E)
    as (Hfs & [view Hview] & [mid Hmid] & Hr).
  unfold try_finally, try_except, mbind, M_bind, bind, ret, rollback, close.
  rewrite E. cbv zeta. cbn [fst snd w_conn record]. rewrite ?Hview.
  destruct r as [success|ex].
  - exists (EvConnect true :: mid ++ [EvClose]).
    destruct (f_close (e_faults e));
      cbn [fst snd w_conn w_fs w_db w_trace set_conn record];
      (split; [rewrite Hmid; cbn; rewrite <- !app_assoc; reflexivity|]);
      (split; [exact Hfs|]);
      (split; [intros _; rewrite app_comm_cons; apply last_snoc|]);
      (split; [intros [ex H]; discriminate H|]);
      intros H; (reflexivity || discriminate H).
  - exists (EvConnect true :: mid ++ [EvRollback; EvClose]).
    assert (Hlast : last (EvConnect true :: mid ++ [EvRollback; EvClose])
                    = Some EvClose).
    { rewrite app_comm_cons.
      replace [EvRollback; EvClose] with ([EvRollback] ++ [EvClose]) by reflexivity.
      rewrite app_assoc. apply last_snoc. }
    destruct (f_rollback (e_faults e)), (f_close (e_faults e));
      cbn [fst snd w_conn w_fs w_db w_trace set_conn record];
      (split; [rewrite Hmid; cbn; rewrite <- !app_assoc; reflexivity|]);
      (split; [exact Hfs|]);
      (split; [intros _; exact Hlast|]);
      (split; [intros _; split; [exact Hr | eauto]|]);
      intros H; (reflexivity || discriminate H).
Qed.

(** When neither [rollback] nor [close] raises, whatever makes the
    [try] body of [process_file] raise (unreadable or empty file, no
    data, refused connection, a failing statement or commit): the
    exception stays inside [process_file], which returns [False]; a
    connection that was opened gets [rollback] and then [close] as its
    last two calls and no connection stays open (the close also ends a
    successful run); the committed table is as it was before the file;
    [main_loop] then calls [move_file] with the error directory, which
    puts a file present in the input directory there, and goes on with
    the remaining files. *)
Theorem process_file_error_policy (float_ok : string -> bool) (e : env)
    (name : string) (w : world) :
  f_rollback (e_faults e) = false ->
  f_close (e_faults e) = false ->
  w_conn w = None ->
  exists (success : bool) (w1 : world) (calls : list event),
    process_file float_ok e (join INPUT_DIR name) w = (Ok success, w1) /\
    (success = false <->
       exists ex, fst (try_body float_ok e (join INPUT_DIR name) w) = Raise ex) /\
    w_conn w1 = None /\
    w_fs w1 = w_fs w /\
    w_trace w1 = w_trace w ++ calls /\
    (In (EvConnect true) calls -> last calls = Some EvClose) /\
    (success = false ->
       w_db w1 = w_db w /\
       (In (EvConnect true) calls ->
          exists mid, calls = EvConnect true :: mid ++ [EvRollback; EvClose])) /\
    (forall o rest,
       PyStr.startswith "." name = false -> o name = e ->
       for_files float_ok o (name :: rest) w
       = for_files float_ok o rest
           (snd (move_file (e_move_now e) (join INPUT_DIR name)
                   (if success then PROCESSED_DIR else ERRORS_DIR) w1))) /\
    (success = false ->
     forall content, w_fs w !! join INPUT_DIR name = Some content ->
       let w2 := snd (move_file (e_move_now e) (join INPUT_DIR name) ERRORS_DIR w1) in
       let dst := destination (e_move_now e) (join INPUT_DIR name) ERRORS_DIR (w_fs w) in
       w_fs w2 !! join INPUT_DIR name = None /\
       w_fs w2 !! dst = Some content /\
       fst dst = ERRORS_DIR /\
       w_db w2 = w_db w /\
       w_conn w2 = None).
Proof.
  intros Hrb Hcl Hconn.
  assert (Hrun : exists success w1 calls,
    process_file float_ok e (join INPUT_DIR name) w = (Ok success, w1) /\
    (success = false <->
       exists ex, fst (try_body float_ok e (join INPUT_DIR name) w) = Raise ex) /\
    w_conn w1 = None /\ w_fs w1 = w_fs w /\ w_trace w1 = w_trace w ++ calls /\
    (In (EvConnect true) calls -> last calls = Some EvClose) /\
    (success = false ->
       w_db w1 = w_db w /\
       (In (EvConnect true) calls ->
          exists mid, calls = EvConnect true :: mid ++ [EvRollback; EvClose]))).
  { unfold process_file, try_body, mbind, M_bind, bind.
    rewrite load_and_connect_run.
    destruct (read_loaded e (join INPUT_DIR name) w) as [ld|ex].
    2:{ exists false, w, []. cbn [fst]. rewrite app_nil_r.
        split; [reflexivity|]. split; [split; eauto|].
        split; [exact Hconn|]. split; [reflexivity|]. split; [reflexivity|].
        split; [intros []|]. intros _. split; [reflexivity | intros []]. }
    destruct (f_connect (e_faults e)).
    { exists false, (record (EvConnect false) w), [EvConnect false]. cbn [fst].
      assert (Hno : ~ In (EvConnect true) [EvConnect false])
        by (intros [H|[]]; discriminate H).
      split; [reflexivity|]. split; [split; eauto|].
      split; [exact Hconn|]. split; [reflexivity|]. split; [reflexivity|].
      split; [intros H; destruct (Hno H)|].
      intros _. split; [reflexivity | intros H; destruct (Hno H)]. }
    set (wc := set_conn (Some (w_db w)) (record (EvConnect true) w)).
    assert (Hopen : is_Some (w_conn wc)) by (cbn; eauto).
    destruct (infer_and_insert float_ok e ld wc) as [r w2] eqn:E.
    destruct (infer_and_insert_inv _ _ _ _ _ _ Hopen E) as (Hfs & Hc2 & [mid Hmid] & Hr).
    unfold try_finally, try_except, mbind, M_bind, bind, ret. rewrite E.
    destruct r as [success|ex].
    - subst success. unfold close. rewrite Hcl. cbv zeta.
      exists true, (set_conn None (record EvClose w2)), (EvConnect true :: mid ++ [EvClose]).
      cbn [fst w_conn w_fs w_db w_trace set_conn record].
      split; [reflexivity|].
      split; [split; [discriminate | intros [ex H]; discriminate H]|].
      split; [reflexivity|].
      split; [exact Hfs|].
      split; [rewrite Hmid; cbn; rewrite <- !app_assoc; reflexivity|].
      split; [intros _; rewrite app_comm_cons; apply last_snoc|].
      discriminate.
    - unfold rollback. rewrite Hrb. cbv zeta. cbn [w_conn record].
      destruct Hc2 as [view Hview]. rewrite Hview.
      unfold close. rewrite Hcl. cbv zeta.
      eexists false, _, (EvConnect true :: mid ++ [EvRollback; EvClose]).
      split; [reflexivity|].
      cbn [fst w_conn w_fs w_db w_trace set_conn record].
      split; [split; eauto|].
      split; [reflexivity|].
      split; [exact Hfs|].
      split; [rewrite Hmid; cbn; rewrite <- !app_assoc; reflexivity|].
      split.
      { intros _. rewrite app_comm_cons.
        replace [EvRollback; EvClose] with ([EvRollback] ++ [EvClose]) by reflexivity.
        rewrite app_assoc. apply last_snoc. }
      intros _. split; [exact Hr | eauto]. }
  destruct Hrun as (success & w1 & calls & Hpf & Hiff & Hc & Hfs & Htr & Hlast & Herr).
  exists success, w1, calls.
  repeat (split; [assumption|]).
  split.
  - intros o rest Hdot Ho. subst e. apply for_files_step; assumption.
  - intros Hfalse content Hsrc. rewrite <- Hfs in Hsrc.
    destruct (move_file_routes (e_move_now e) name ERRORS_DIR content w1
                ltac:(discriminate) Hsrc) as (H1 & H2 & H3 & H4 & H5 & _).
    cbv zeta. rewrite <- Hfs.
    destruct (Herr Hfalse) as [Hdb _].
    repeat split; congruence.
Qed.

Lemma process_file_error_policy_witness :
  exists w1,
    process_file decimal_literal insert_fails (join INPUT_DIR "a.csv") two_inputs
    = (Ok false, w1) /\
    w_db w1 = None /\ w_conn w1 = None /\
    w_fs (snd (move_file noon (join INPUT_DIR "a.csv") ERRORS_DIR w1))
      !! join ERRORS_DIR "a.csv" = Some readings.
Proof.
  destruct (process_file_error_policy decimal_literal insert_fails "a.csv"
              two_inputs eq_refl eq_refl eq_refl)
    as (success & w1 & calls & Hrun & Hiff & Hconn & _ & _ & _ & Herr & _ & Hmove).
  assert (Hfalse : success = false).
  { apply Hiff. exists DatabaseError. vm_compute. reflexivity. }
  subst success. exists w1.
  destruct (Herr eq_refl) as [Hdb _].
  destruct (Hmove eq_refl readings eq_refl) as (_ & Hdst & _).
  split; [exact Hrun|]. split; [exact Hdb|]. split; [exact Hconn|]. exact Hdst.
Defined.

(** C3: the policy of the claim, broken by the code at this input.  The
    connection is lost while the first of two files is inserted, so
    [executemany] raises and [rollback] raises inside the [except]
    clause, before its [return False].  The exception leaves
    [process_file] (after the [finally] clause closed the connection);
    [main_loop] makes no [move_file] call, the file stays in the input
    directory and nothing reaches the error directory, and the [for] loop
    ends without touching the next file. *)
Lemma rollback_failure_escapes :
  let o := fun name : string =>
             if String.eqb name "a.csv" then connection_lost else calm in
  let out := for_files decimal_literal o ["a.csv"; "b.csv"] two_inputs in
  fst (try_body decimal_literal connection_lost (join INPUT_DIR "a.csv") two_inputs)
  = Raise DatabaseError /\
  fst (process_file decimal_literal connection_lost (join INPUT_DIR "a.csv") two_inputs)
  = Raise DatabaseError /\
  fst out = Raise DatabaseError /\
  w_fs (snd out) = w_fs two_inputs /\
  listdir ERRORS_DIR (w_fs (snd out)) = [] /\
  w_fs (snd out) !! join INPUT_DIR "b.csv" = Some [["x"]; ["7"]] /\
  length (w_trace (snd out)) = 5 /\
  last (w_trace (snd out)) = Some EvClose /\
  w_conn (snd out) = None.
Proof. vm_compute. repeat split. Qed.

Lemma read_rows_all_empty n filename now rows :
  Forall (fun row : list string => row = []) rows ->
  read_rows n filename now rows [] = [].
Proof.
  induction 1 as [|row rows -> _ IH]; [reflexivity | exact IH].
Qed.

(** C6: a file with a header row and no data row other than empty ones
    makes the [try] body raise the no-data exception; [process_file]
    returns [False] without touching the database, and [main_loop] moves
    the file to the error directory and goes on. *)
Theorem header_only_file_is_an_error (float_ok : string -> bool) (e : env)
    (name : string) (header : list string) (rows : list (list string))
    (w : world) :
  f_open (e_faults e) = false ->
  w_fs w !! join INPUT_DIR name = Some (header :: rows) ->
  Forall (fun row : list string => row = []) rows ->
  let w2 := snd (move_file (e_move_now e) (join INPUT_DIR name) ERRORS_DIR w) in
  let dst := destination (e_move_now e) (join INPUT_DIR name) ERRORS_DIR (w_fs w) in
  fst (try_body float_ok e (join INPUT_DIR name) w) = Raise NoDataError /\
  process_file float_ok e (join INPUT_DIR name) w = (Ok false, w) /\
  (forall o rest,
     PyStr.startswith "." name = false -> o name = e ->
     for_files float_ok o (name :: rest) w = for_files float_ok o rest w2) /\
  w_fs w2 !! join INPUT_DIR name = None /\
  w_fs w2 !! dst = Some (header :: rows) /\
  fst dst = ERRORS_DIR /\
  w_db w2 = w_db w /\
  w_trace w2 = w_trace w ++ [EvMove (join INPUT_DIR name) dst].
Proof.
  intros Hopen Hsrc Hrows. cbv zeta.
  assert (Hread : read_loaded e (join INPUT_DIR name) w = Raise NoDataError).
  { unfold read_loaded. rewrite Hopen, Hsrc. unfold load_csv.
    rewrite read_rows_all_empty by exact Hrows. reflexivity. }
  assert (Hrun : process_file float_ok e (join INPUT_DIR name) w = (Ok false, w)).
  { unfold process_file. rewrite load_and_connect_run, Hread. reflexivity. }
  split.
  { unfold try_body, mbind, M_bind, bind. rewrite load_and_connect_run, Hread.
    reflexivity. }
  split; [exact Hrun|].
  split.
  { intros o rest Hdot Ho. subst e.
    exact (for_files_step float_ok o name rest w false w Hdot Hrun). }
  destruct (move_file_routes (e_move_now e) name ERRORS_DIR (header :: rows) w
              ltac:(discriminate) Hsrc) as (H1 & H2 & H3 & H4 & _ & H6).
  auto.
Qed.

Lemma header_only_file_is_an_error_witness :
  process_file decimal_literal calm (join INPUT_DIR "empty.csv") header_only
  = (Ok false, header_only) /\
  w_fs (snd (move_file noon (join INPUT_DIR "empty.csv") ERRORS_DIR header_only))
    !! join ERRORS_DIR "empty.csv" = Some [["id"; "amount"]; []; []].
Proof.
  destruct (header_only_file_is_an_error decimal_literal calm "empty.csv"
              ["id"; "amount"] [[]; []] header_only eq_refl eq_refl
              ltac:(repeat constructor))
    as (_ & Hrun & _ & _ & Hdst & _).
  split; [exact Hrun | exact Hdst].
Defined.


(** ** Schema inference *)

Lemma fill_row_spec (row : list value) m :
  forall k (cols : list (list value)),
    k + m <= length cols -> k + m <= length row ->
    exists cols',
      fill_row row (seq k m) cols = Ok cols' /\
      length cols' = length cols /\
      forall j col, cols !! j = Some col ->
        cols' !! j
        = Some (if bool_decide (k <= j < k + m)
                then col ++ [default VNone (row !! j)] else col).
Proof.
  induction m as [|m IH]; intros k cols Hcols Hrow.
  - exists cols. split; [reflexivity|]. split; [reflexivity|].
    intros j col Hj. rewrite bool_decide_eq_false_2 by lia. exact Hj.
  - cbn [seq fill_row].
    destruct (lookup_lt_is_Some_2 row k ltac:(lia)) as [v Hv].
    destruct (lookup_lt_is_Some_2 cols k ltac:(lia)) as [colk Hcolk].
    rewrite Hv. unfold append_at. rewrite Hcolk. cbn [rbind].
    destruct (IH (S k) (<[k := colk ++ [v]]> cols)) as (cols' & Hrun & Hlen & Hget).
    { rewrite length_insert. lia. }
    { lia. }
    exists cols'. split; [exact Hrun|].
    split; [rewrite Hlen; apply length_insert|].
    intros j col Hj. destruct (decide (j = k)) as [->|Hne].
    + rewrite (Hget k (colk ++ [v])).
      2:{ apply list_lookup_insert_eq. lia. }
      rewrite bool_decide_eq_false_2 by lia.
      rewrite bool_decide_eq_true_2 by lia.
      rewrite Hv. cbn. congruence.
    + rewrite (Hget j col).
      2:{ rewrite list_lookup_insert_ne by congruence. exact Hj. }
      f_equal. apply (f_equal (fun b : bool => if b then _ else _)).
      apply bool_decide_ext. lia.
Qed.

Lemma fill_columns_spec n (rows : list (list value)) :
  forall cols : list (list value),
    length cols = n ->
    Forall (fun row => n <= length row) rows ->
    exists cols',
      fill_columns n rows cols = Ok cols' /\
      length cols' = n /\
      forall j col, cols !! j = Some col ->
        cols' !! j
        = Some (col ++ map (fun row => default VNone (row !! j)) rows).
Proof.
  induction rows as [|row rows IH]; intros cols Hlen Hrows.
  - exists cols. split; [reflexivity|]. split; [exact Hlen|].
    intros j col Hj. cbn [map]. rewrite app_nil_r. exact Hj.
  - apply Forall_cons in Hrows as [Hrow Hrows].
    cbn [fill_columns].
    destruct (fill_row_spec row n 0 cols ltac:(lia) ltac:(lia))
      as (cols1 & Hrun1 & Hlen1 & Hget1).
    rewrite Hrun1. cbn [rbind].
    destruct (IH cols1 ltac:(congruence) Hrows) as (cols' & Hrun & Hlen' & Hget).
    exists cols'. split; [exact Hrun|]. split; [exact Hlen'|].
    intros j col Hj.
    pose proof (lookup_lt_Some _ _ _ Hj) as Hlt.
    rewrite (Hget j (col ++ [default VNone (row !! j)])).
    + cbn [map]. rewrite <- app_assoc. reflexivity.
    + rewrite (Hget1 j col Hj), bool_decide_eq_true_2 by lia. reflexivity.
Qed.

Lemma column_of_cells n (rows : list (list value)) j :
  Forall (row_shape n) rows -> j < n ->
  exists cs, map (fun row => default VNone (row !! j)) rows = map of_cell cs.
Proof.
  intros Hrows Hj. induction Hrows as [|row rows (cells & meta & Hlen & ->) _ [cs IH]].
  - exists []. reflexivity.
  - destruct (lookup_lt_is_Some_2 cells j ltac:(lia)) as [c Hc].
    exists (c :: cs). cbn [map]. rewrite IH. f_equal.
    rewrite lookup_app_l by (rewrite length_map; lia).
    rewrite list_lookup_fmap, Hc. reflexivity.
Qed.

Lemma infer_sql_type_cells_ok float_ok h cs :
  exists t, infer_sql_type float_ok h (map of_cell cs) = Ok t.
Proof.
  unfold infer_sql_type.
  destruct (PyStr.contains "date" h || PyStr.contains "time" h); [eauto|].
  rewrite scan_values_cells. cbn [rbind].
  destruct (_ && _); eauto.
Qed.

Lemma column_type_ok float_ok n (cd : list (list value)) i h :
  (forall j, j < n -> exists cs, cd !! j = Some (map of_cell cs)) ->
  exists t, column_type float_ok n cd i h = Ok t.
Proof.
  intros Hcd. unfold column_type.
  destruct (String.eqb h "source_filename"); [eauto|].
  destruct (String.eqb h "import_timestamp"); [eauto|].
  destruct (Nat.ltb i n) eqn:E; [|eauto].
  apply Nat.ltb_lt in E. destruct (Hcd i E) as [cs ->].
  apply infer_sql_type_cells_ok.
Qed.

Lemma column_types_from_ok float_ok n (cd : list (list value)) :
  (forall j, j < n -> exists cs, cd !! j = Some (map of_cell cs)) ->
  forall (hs : list string) i,
    exists tys,
      column_types_from float_ok n cd i hs = Ok tys /\
      length tys = length hs /\
      forall k h, hs !! k = Some h ->
        exists t, tys !! k = Some t /\ column_type float_ok n cd (i + k) h = Ok t.
Proof.
  intros Hcd. induction hs as [|h hs IH]; intros i.
  - exists []. split; [reflexivity|]. split; [reflexivity|]. intros k h' Hk.
    rewrite lookup_nil in Hk. discriminate.
  - cbn [column_types_from].
    destruct (column_type_ok float_ok n cd i h Hcd) as [t Ht].
    destruct (IH (S i)) as (tys & Hrun & Hlen & Hget).
    rewrite Ht, Hrun. cbn [rbind].
    exists (t :: tys). split; [reflexivity|]. split; [cbn; congruence|].
    intros [|k] h' Hk.
    + injection Hk as <-. exists t. rewrite Nat.add_0_r. auto.
    + destruct (Hget k h' Hk) as (t' & Ht' & Hty).
      exists t'. split; [exact Ht'|].
      replace (i + S k) with (S i + k) by lia. exact Hty.
Qed.

Lemma lookup_repeat {A} (x : A) n j : j < n -> repeat x n !! j = Some x.
Proof.
  revert j. induction n as [|n IH]; intros j Hj; [lia|].
  destruct j as [|j]; [reflexivity|]. cbn. apply IH. lia.
Qed.

Lemma loaded_rows_shape file_path now records ld :
  load_csv file_path now records = Ok ld ->
  Forall (row_shape (length (original_headers ld))) (raw_data ld).
Proof.
  intros Hload. destruct (load_csv_shape _ _ _ _ Hload) as [_ Hrows].
  apply Forall_forall. intros row Hrow%list_elem_of_In.
  destruct (Hrows row Hrow) as (cells & Hlen & ->).
  exists cells, [VStr (basename file_path); VTime now]. auto.
Qed.

(** Step 3 never raises on what step 1 built. *)
Lemma infer_types_ok float_ok file_path now records ld :
  load_csv file_path now records = Ok ld ->
  exists cd tys,
    fill_columns (length (original_headers ld)) (raw_data ld)
      (repeat [] (length (original_headers ld))) = Ok cd /\
    infer_types float_ok ld = Ok tys /\
    length tys = length (headers ld) /\
    forall k h, headers ld !! k = Some h ->
      exists t, tys !! k = Some t /\
        column_type float_ok (length (original_headers ld)) cd k h = Ok t.
Proof.
  intros Hload. pose proof (loaded_rows_shape _ _ _ _ Hload) as Hshape.
  set (n := length (original_headers ld)) in *.
  destruct (fill_columns_spec n (raw_data ld) (repeat [] n)) as (cd & Hrun & Hlen & Hget).
  { apply repeat_length. }
  { eapply Forall_impl; [exact Hshape|].
    intros row (cells & meta & Hc & ->). rewrite length_app, length_map. lia. }
  assert (Hcd : forall j, j < n -> exists cs, cd !! j = Some (map of_cell cs)).
  { intros j Hj. destruct (column_of_cells n (raw_data ld) j Hshape Hj) as [cs Hcs].
    exists cs. rewrite (Hget j [] (lookup_repeat _ _ _ Hj)), Hcs. reflexivity. }
  destruct (column_types_from_ok float_ok n cd Hcd (headers ld) 0)
    as (tys & Htys & Hlen' & Hty).
  exists cd, tys. split; [exact Hrun|].
  split; [unfold infer_types; fold n; rewrite Hrun; exact Htys|].
  split; [exact Hlen'|]. exact Hty.
Qed.

(** C10: the name test of the type-assignment loop comes first and
    does not look at the position, so a data column whose normalized
    header is source_filename is typed TEXT, and one whose normalized
    header is import_timestamp is typed TIMESTAMP, whatever values the
    column holds. *)
Theorem metadata_named_data_column (float_ok : string -> bool)
    (file_path : directory * string) (now : datetime)
    (records : list (list string)) (ld : loaded) (i : nat) (raw : string) :
  load_csv file_path now records = Ok ld ->
  original_headers ld !! i = Some raw ->
  exists tys,
    infer_types float_ok ld = Ok tys /\
    length tys = length (headers ld) /\
    headers ld !! i = Some (clean_name (Some raw)) /\
    (clean_name (Some raw) = "source_filename" -> tys !! i = Some TEXT) /\
    (clean_name (Some raw) = "import_timestamp" -> tys !! i = Some TIMESTAMP).
Proof.
  intros Hload Hraw.
  destruct (infer_types_ok float_ok _ _ _ _ Hload) as (cd & tys & _ & Hrun & Hlen & Hty).
  destruct (load_csv_shape _ _ _ _ Hload) as [Hh _].
  assert (Hi : headers ld !! i = Some (clean_name (Some raw))).
  { rewrite Hh, lookup_app_l.
    - rewrite list_lookup_fmap, Hraw. reflexivity.
    - rewrite length_map. exact (lookup_lt_Some _ _ _ Hraw). }
  exists tys. split; [exact Hrun|]. split; [exact Hlen|]. split; [exact Hi|].
  destruct (Hty i _ Hi) as (t & Ht & Hct).
  split; intros Hname; rewrite Hname in Hct; unfold column_type in Hct;
    cbn in Hct; congruence.
Qed.

Lemma metadata_named_data_column_witness :
  infer_sql_type decimal_literal "source_filename" [VStr "1"; VStr "3.5"]
  = Ok DOUBLE_PRECISION /\
  exists ld tys,
    load_csv (join INPUT_DIR "s.csv") noon shadowing = Ok ld /\
    infer_types decimal_literal ld = Ok tys /\
    tys !! 0 = Some TEXT /\ tys !! 1 = Some TIMESTAMP.
Proof.
  split; [reflexivity|].
  eexists.
  destruct (metadata_named_data_column decimal_literal (join INPUT_DIR "s.csv")
              noon shadowing _ 0 "Source Filename" eq_refl eq_refl)
    as (tys & Hrun & _ & _ & Htext & _).
  destruct (metadata_named_data_column decimal_literal (join INPUT_DIR "s.csv")
              noon shadowing _ 1 "Import Timestamp" eq_refl eq_refl)
    as (tys' & Hrun' & _ & _ & _ & Hstamp).
  exists tys. split; [reflexivity|]. split; [exact Hrun|].
  split; [exact (Htext eq_refl)|].
  assert (tys' = tys) as -> by congruence. exact (Hstamp eq_refl).
Defined.

(* ================================================================== *)
(** * Part III: further properties of the module *)
(* ================================================================== *)

(** ** Configuration *)

Lemma split_eq_app line key val :
  split_eq line = Some (key, val) ->
  line = key +:+ "=" +:+ val /\
  PyStr.sforall (fun c => negb (Ascii.eqb c "=")) key = true.
Proof.
  revert key. induction line as [|c rest IH]; intros key; simpl; [discriminate|].
  destruct (Ascii.eqb c "=") eqn:E.
  - intros [= <- <-]. apply Ascii.eqb_eq in E. subst c. split; reflexivity.
  - destruct (split_eq rest) as [[k v]|]; [|discriminate].
    intros [= <- <-]. destruct (IH k eq_refl) as [-> Hk].
    split; [reflexivity|]. simpl. rewrite E, Hk. reflexivity.
Qed.

Lemma split_eq_none line :
  split_eq line = None <->
  PyStr.sforall (fun c => negb (Ascii.eqb c "=")) line = true.
Proof.
  induction line as [|c rest IH]; simpl; [tauto|].
  destruct (Ascii.eqb c "="); simpl.
  - split; discriminate.
  - rewrite <- IH. destruct (split_eq rest) as [[k v]|]; split; congruence.
Qed.

Lemma config_line_lookup config line k :
  config_line config line !! k
  = match line_assignment line with
    | Some (key, val) => if decide (key = k) then Some (Some val) else config !! k
    | None => config !! k
    end.
Proof.
  unfold config_line. destruct (line_assignment line) as [[key val]|]; [|reflexivity].
  apply lookup_insert.
Qed.

Lemma fold_config_lookup_untouched lines config k :
  Forall (fun line => forall v, line_assignment line <> Some (k, v)) lines ->
  fold_left config_line lines config !! k = config !! k.
Proof.
  revert config. induction lines as [|line lines IH]; intros config Hlines;
    [reflexivity|].
  apply Forall_cons in Hlines as [Hline Hlines]. cbn [fold_left].
  rewrite (IH _ Hlines), config_line_lookup.
  destruct (line_assignment line) as [[key val]|]; [|reflexivity].
  destruct (decide (key = k)) as [->|]; [|reflexivity].
  destruct (Hline val eq_refl).
Qed.

Lemma fold_config_is_Some lines config k :
  is_Some (config !! k) -> is_Some (fold_left config_line lines config !! k).
Proof.
  revert config. induction lines as [|line lines IH]; intros config Hk; [exact Hk|].
  cbn [fold_left]. apply IH. rewrite config_line_lookup.
  destruct (line_assignment line) as [[key val]|]; [|exact Hk].
  destruct (decide (key = k)); [eauto | exact Hk].
Qed.

(** X1: whatever the configuration file holds and whatever the
    environment holds, each of the five settings the module reads is
    defined (the subscript never fails), and its value is the
    environment's when the variable is set there and the loaded
    configuration's otherwise. *)
Theorem db_settings_defined (env_file : option (list string))
    (environ : gmap string string) :
  Forall (fun key =>
            exists d,
              load_env_config env_file !! key = Some d /\
              db_setting environ (load_env_config env_file) key
              = Some (match environ !! key with
                      | Some v => Some v
                      | None => d
                      end))
         config_keys.
Proof.
  assert (H : forall key, is_Some (default_config !! key) ->
            exists d, load_env_config env_file !! key = Some d /\
              db_setting environ (load_env_config env_file) key
              = Some (match environ !! key with Some v => Some v | None => d end)).
  { intros key Hdef.
    assert (Hk : is_Some (load_env_config env_file !! key)).
    { destruct env_file as [lines|]; [|exact Hdef].
      apply fold_config_is_Some, Hdef. }
    destruct Hk as [d Hd]. exists d. split; [exact Hd|].
    unfold db_setting, getenv. rewrite Hd. reflexivity. }
  repeat constructor; apply H; eexists; reflexivity.
Qed.

(** X2: a key that no line of the file assigns keeps the value of the
    dictionary literal, and so does every key when the file is absent. *)
Theorem unassigned_key_keeps_default (lines : list string) (k : string) :
  Forall (fun line => forall v, line_assignment line <> Some (k, v)) lines ->
  load_env_config (Some lines) !! k = default_config !! k /\
  load_env_config None !! k = default_config !! k.
Proof.
  intros H. split; [|reflexivity]. apply fold_config_lookup_untouched, H.
Qed.

Lemma unassigned_key_keeps_default_witness :
  load_env_config (Some ["# DB_USER=root"; "DB_HOST=db1"; "no equals sign"])
    !! "DB_USER" = Some (Some "postgres").
Proof.
  apply (unassigned_key_keeps_default
           ["# DB_USER=root"; "DB_HOST=db1"; "no equals sign"] "DB_USER").
  repeat constructor; intros v H; vm_compute in H; discriminate H.
Defined.

(** X3: the last line that assigns a key decides its value: after a
    line assigning [v] to [k], followed only by lines that do not assign
    [k], the configuration holds [v] for [k], whatever came before. *)
Theorem last_assignment_wins (pre post : list string) (line k v : string) :
  line_assignment line = Some (k, v) ->
  Forall (fun l => forall v', line_assignment l <> Some (k, v')) post ->
  load_env_config (Some (pre ++ line :: post)) !! k = Some (Some v).
Proof.
  intros Hline Hpost. unfold load_env_config.
  rewrite fold_left_app. cbn [fold_left].
  rewrite (fold_config_lookup_untouched _ _ _ Hpost), config_line_lookup, Hline.
  rewrite decide_True by reflexivity. reflexivity.
Qed.

Lemma last_assignment_wins_witness :
  load_env_config
    (Some (["DB_HOST=a"] ++ " DB_HOST = b=c " :: ["# DB_HOST=z"; "DB_PORT=1"]))
    !! "DB_HOST" = Some (Some "b=c").
Proof.
  apply (last_assignment_wins ["DB_HOST=a"] ["# DB_HOST=z"; "DB_PORT=1"]
           " DB_HOST = b=c " "DB_HOST" "b=c").
  - reflexivity.
  - repeat constructor; intros v H; vm_compute in H; discriminate H.
Defined.

(** X4: a line that is blank after trimming, starts with a hash sign
    after trimming, or holds no equals sign changes nothing: the file
    gives the same configuration with or without it. *)
Theorem ignored_line (pre post : list string) (line : string) :
  PyStr.strip line = EmptyString \/
  PyStr.startswith "#" (PyStr.strip line) = true \/
  PyStr.sforall (fun c => negb (Ascii.eqb c "=")) (PyStr.strip line) = true ->
  load_env_config (Some (pre ++ line :: post))
  = load_env_config (Some (pre ++ post)).
Proof.
  intros H.
  assert (Hnone : line_assignment line = None).
  { unfold line_assignment. cbv zeta.
    destruct H as [-> | [-> | H]];
      [reflexivity | rewrite orb_true_r; reflexivity |].
    apply split_eq_none in H. rewrite H.
    destruct (_ || _); reflexivity. }
  unfold load_env_config. rewrite !fold_left_app. cbn [fold_left].
  unfold config_line at 2. rewrite Hnone. reflexivity.
Qed.

Lemma ignored_line_witness :
  load_env_config (Some (["DB_HOST=a"] ++ "  # DB_HOST=b" :: ["DB_PORT=1"]))
  = load_env_config (Some (["DB_HOST=a"] ++ ["DB_PORT=1"])).
Proof.
  apply (ignored_line ["DB_HOST=a"] ["DB_PORT=1"] "  # DB_HOST=b").
  right. left. reflexivity.
Defined.

(** X5: a line assigns at its first equals sign: the key is the trimmed
    text before it and holds no equals sign, the value is the trimmed
    text after it (further equals signs belong to the value), and the
    trimmed line is not empty and does not start with a hash sign. *)
Theorem assignment_splits_at_first_equals (line k v : string) :
  line_assignment line = Some (k, v) ->
  exists key val,
    PyStr.strip line = key +:+ "=" +:+ val /\
    PyStr.sforall (fun c => negb (Ascii.eqb c "=")) key = true /\
    k = PyStr.strip key /\ v = PyStr.strip val /\
    PyStr.strip line <> EmptyString /\
    PyStr.startswith "#" (PyStr.strip line) = false.
Proof.
  unfold line_assignment. cbv zeta.
  destruct (String.eqb (PyStr.strip line) EmptyString) eqn:E1; [discriminate|].
  destruct (PyStr.startswith "#" (PyStr.strip line)) eqn:E2; [discriminate|].
  cbn [orb].
  destruct (split_eq (PyStr.strip line)) as [[key val]|] eqn:E3; [|discriminate].
  intros [= <- <-]. exists key, val.
  destruct (split_eq_app _ _ _ E3) as [Happ Hkey].
  apply String.eqb_neq in E1. auto 10.
Qed.

Lemma assignment_splits_at_first_equals_witness :
  exists key val,
    PyStr.strip " DB_PASS = a=b " = key +:+ "=" +:+ val /\
    PyStr.strip key = "DB_PASS" /\ PyStr.strip val = "a=b".
Proof.
  destruct (assignment_splits_at_first_equals " DB_PASS = a=b " "DB_PASS" "a=b" eq_refl)
    as (key & val & H1 & _ & H2 & H3 & _).
  exists key, val. auto.
Defined.

(** ** Normalizers *)

Lemma rstrip_idem s : PyStr.rstrip (PyStr.rstrip s) = PyStr.rstrip s.
Proof.
  induction s as [|c s IH]; [reflexivity|].
  cbn [PyStr.rstrip]. destruct (PyStr.rstrip s) as [|d r] eqn:E.
  - destruct (PyStr.isspace c) eqn:Ec; [reflexivity|].
    cbn [PyStr.rstrip]. rewrite Ec. reflexivity.
  - cbn [PyStr.rstrip] in *. rewrite IH. reflexivity.
Qed.

Lemma lstrip_head s :
  PyStr.lstrip s = EmptyString \/
  exists c r, PyStr.lstrip s = String c r /\ PyStr.isspace c = false.
Proof.
  induction s as [|c s IH]; [left; reflexivity|].
  cbn [PyStr.lstrip]. destruct (PyStr.isspace c) eqn:E; [exact IH|].
  right. eauto.
Qed.

Lemma rstrip_head c r :
  PyStr.isspace c = false -> exists r', PyStr.rstrip (String c r) = String c r'.
Proof.
  intros Hc. cbn [PyStr.rstrip]. destruct (PyStr.rstrip r); [rewrite Hc|]; eauto.
Qed.

Lemma strip_idem s : PyStr.strip (PyStr.strip s) = PyStr.strip s.
Proof.
  unfold PyStr.strip.
  destruct (lstrip_head s) as [-> | (c & r & -> & Hc)]; [reflexivity|].
  destruct (rstrip_head c r Hc) as [r' Hr]. rewrite Hr.
  cbn [PyStr.lstrip]. rewrite Hc, <- Hr. apply rstrip_idem.
Qed.

(** X6: [parse_value] applied to its own result changes nothing, and a
    non-null result is trimmed and is none of the five markers. *)
Theorem parse_value_idempotent (value : option string) :
  parse_value (parse_value value) = parse_value value /\
  forall s, parse_value value = Some s ->
    PyStr.strip s = s /\ ~ In s null_markers.
Proof.
  destruct value as [s|]; [|split; [reflexivity | discriminate]].
  unfold parse_value. cbv zeta.
  destruct (str_in (PyStr.strip s) null_markers) eqn:E.
  - split; [reflexivity | discriminate].
  - rewrite strip_idem, E. split; [reflexivity|].
    intros s' [= <-]. split; [apply strip_idem|].
    intros H%str_in_In. congruence.
Qed.

Lemma parse_value_idempotent_witness :
  parse_value (parse_value (Some " 1.5 ")) = Some "1.5" /\
  PyStr.strip "1.5" = "1.5" /\ ~ In "1.5" null_markers.
Proof.
  destruct (parse_value_idempotent (Some " 1.5 ")) as [Hid Hres].
  split; [rewrite Hid; reflexivity|].
  exact (Hres "1.5" eq_refl).
Defined.


Lemma replace_sforall_same (P : ascii -> bool) old new s :
  P old = false -> PyStr.sforall P new = false ->
  PyStr.sforall P (PyStr.replace old new s) = PyStr.sforall P s.
Proof.
  intros Hold Hnew. induction s as [|c s IH]; [reflexivity|].
  cbn [PyStr.replace PyStr.sforall]. destruct (Ascii.eqb c old) eqn:E.
  - apply Ascii.eqb_eq in E. subst c. rewrite sforall_app, Hnew, Hold. reflexivity.
  - cbn [PyStr.sforall]. rewrite IH. reflexivity.
Qed.

Lemma remove_sforall (P : ascii -> bool) old s :
  PyStr.sforall P (PyStr.replace old EmptyString s)
  = PyStr.sforall (fun c => Ascii.eqb c old || P c) s.
Proof.
  induction s as [|c s IH]; [reflexivity|].
  cbn [PyStr.replace PyStr.sforall]. destruct (Ascii.eqb c old) eqn:E.
  - rewrite sforall_app. cbn [PyStr.sforall andb orb]. exact IH.
  - cbn [PyStr.sforall orb]. rewrite IH. reflexivity.
Qed.

Lemma sforall_false_empty s :
  PyStr.sforall (fun _ => false) s = true <-> s = EmptyString.
Proof. destruct s; simpl; split; congruence. Qed.

Lemma substitutions_empty s :
  substitutions s = EmptyString <-> PyStr.sforall is_paren s = true.
Proof.
  rewrite <- sforall_false_empty. unfold substitutions.
  rewrite !remove_sforall.
  rewrite !replace_sforall_same by reflexivity.
  assert (E : forall c, (Ascii.eqb c "(" || (Ascii.eqb c ")" || false)) = is_paren c).
  { intros c. unfold is_paren. rewrite orb_false_r. reflexivity. }
  split; intros H; (eapply sforall_impl; [|exact H]); intros c; cbv beta;
    rewrite E; auto.
Qed.

Lemma is_paren_lower_char c : is_paren (PyStr.lower_char c) = is_paren c.
Proof. by_char c. Qed.

Lemma sforall_is_paren_lower s :
  PyStr.sforall is_paren (PyStr.lower s) = PyStr.sforall is_paren s.
Proof.
  induction s as [|c s IH]; [reflexivity|].
  cbn [PyStr.lower PyStr.sforall]. rewrite is_paren_lower_char, IH. reflexivity.
Qed.

(** X8: [clean_name] returns the empty name exactly for a non-empty
    header that, once trimmed, holds nothing but parentheses (a header
    of whitespace only is one). *)
Theorem clean_name_empty (s : string) :
  clean_name (Some s) = EmptyString <->
  s <> EmptyString /\ PyStr.sforall is_paren (PyStr.strip s) = true.
Proof.
  destruct s as [|c r].
  - split; [discriminate | intros [H _]; congruence].
  - unfold clean_name. rewrite substitutions_empty, sforall_is_paren_lower.
    split; [intros H; split; [discriminate | exact H] | intros [_ H]; exact H].
Qed.

(** X9: the inferred type depends only on the header name and on which
    strings occur among the values: nulls, repetitions and the order of
    the rows make no difference. *)
Theorem infer_sql_type_depends_on_value_set (float_ok : string -> bool)
    (header_name : string) (cells cells' : list (option string)) :
  (forall s, In (Some s) cells <-> In (Some s) cells') ->
  infer_sql_type float_ok header_name (map of_cell cells)
  = infer_sql_type float_ok header_name (map of_cell cells').
Proof.
  intros Hsame. unfold infer_sql_type. rewrite !scan_values_cells.
  assert (E1 : forallb (cell_numeric float_ok) cells
               = forallb (cell_numeric float_ok) cells').
  { apply eq_iff_eq_true. rewrite !forallb_cell_numeric.
    split; intros H s Hs; apply H, Hsame, Hs. }
  assert (E2 : existsb (fun c => bool_decide (c <> None)) cells
               = existsb (fun c => bool_decide (c <> None)) cells').
  { apply eq_iff_eq_true. rewrite !existsb_non_null.
    split; intros [s Hs]; exists s; apply Hsame, Hs. }
  rewrite E1, E2. reflexivity.
Qed.

Lemma infer_sql_type_depends_on_value_set_witness :
  infer_sql_type decimal_literal "amount"
    (map of_cell [Some "1"; None; Some "2.5"; Some "1"])
  = infer_sql_type decimal_literal "amount" (map of_cell [Some "2.5"; Some "1"]).
Proof.
  apply (infer_sql_type_depends_on_value_set decimal_literal "amount"
           [Some "1"; None; Some "2.5"; Some "1"] [Some "2.5"; Some "1"]).
  intros s. simpl. split; intros H;
    repeat (destruct H as [H|H]; [inversion H; subst; auto|]); try destruct H.
Defined.

(** ** File names *)

Lemma split_last_dot_ext s before ext :
  split_last_dot s = Some (before, ext) ->
  exists r, ext = String "." r /\ PyStr.sforall not_dot r = true.
Proof.
  revert before ext. induction s as [|c s IH]; intros before ext;
    cbn [split_last_dot]; [discriminate|].
  destruct (split_last_dot s) as [[b e]|] eqn:E.
  - intros [= <- <-]. exact (IH b e eq_refl).
  - destruct (Ascii.eqb c ".") eqn:Ec; [|discriminate].
    intros [= <- <-]. apply Ascii.eqb_eq in Ec. subst c.
    exists s. split; [reflexivity|].
    clear IH. induction s as [|d s IHs]; [reflexivity|].
    cbn [split_last_dot] in E.
    destruct (split_last_dot s) as [[b e]|]; [discriminate|].
    destruct (Ascii.eqb d ".") eqn:Ed; [discriminate|].
    cbn [PyStr.sforall]. unfold not_dot at 1. rewrite Ed. cbn [negb andb].
    apply IHs. reflexivity.
Qed.

(** X10: [splitext] loses nothing: the name is the base followed by the
    extension.  The extension is empty, or it is the last dot of the name
    with what follows it, and then something other than a dot comes
    before that dot. *)
Theorem splitext_parts (filename : string) :
  let base := fst (splitext filename) in
  let ext := snd (splitext filename) in
  filename = base +:+ ext /\
  (ext = EmptyString /\ base = filename
   \/ exists r, ext = String "." r /\ PyStr.sforall not_dot r = true /\
                PyStr.sforall (Ascii.eqb ".") base = false).
Proof.
  cbv zeta. split; [apply splitext_app|].
  unfold splitext. destruct (split_last_dot filename) as [[b e]|] eqn:E.
  - destruct (PyStr.sforall (Ascii.eqb ".") b) eqn:Eb; cbn [fst snd].
    + left. auto.
    + right. destruct (split_last_dot_ext _ _ _ E) as (r & -> & Hr). eauto.
  - left. auto.
Qed.

Lemma digit_inj a b : digit a = digit b -> a mod 10 = b mod 10.
Proof.
  unfold digit. intros H.
  pose proof (Nat.mod_upper_bound a 10 ltac:(lia)).
  pose proof (Nat.mod_upper_bound b 10 ltac:(lia)).
  apply (f_equal nat_of_ascii) in H.
  rewrite !nat_ascii_embedding in H by lia. lia.
Qed.

Lemma digit_small_inj a b : a < 10 -> b < 10 -> digit a = digit b -> a = b.
Proof.
  intros Ha Hb H%digit_inj. rewrite !Nat.mod_small in H by assumption. exact H.
Qed.

Lemma two_digits_inj n m :
  n < 100 -> m < 100 -> two_digits n = two_digits m -> n = m.
Proof.
  intros Hn Hm H. unfold two_digits in H. injection H as H1 H2.
  assert (L1 : n / 10 < 10) by (apply Nat.Div0.div_lt_upper_bound; lia).
  assert (L2 : m / 10 < 10) by (apply Nat.Div0.div_lt_upper_bound; lia).
  apply (digit_small_inj _ _ L1 L2) in H1. apply digit_inj in H2.
  pose proof (Nat.div_mod_eq n 10). pose proof (Nat.div_mod_eq m 10). lia.
Qed.

Lemma div_mod_step n k :
  n / k = 10 * (n / (k * 10)) + (n / k) mod 10.
Proof.
  rewrite <- Nat.Div0.div_div. apply Nat.div_mod_eq.
Qed.

Lemma four_digits_inj n m :
  n < 100 * 100 -> m < 100 * 100 -> four_digits n = four_digits m -> n = m.
Proof.
  intros Hn Hm H. unfold four_digits, two_digits in H.
  injection H as H1 H2 H3 H4.
  apply digit_inj in H2, H3, H4.
  assert (L1 : n / 1000 < 10) by (apply Nat.Div0.div_lt_upper_bound; lia).
  assert (L2 : m / 1000 < 10) by (apply Nat.Div0.div_lt_upper_bound; lia).
  apply (digit_small_inj _ _ L1 L2) in H1.
  assert (H2' : (n / 100) mod 10 = (m / 100) mod 10) by exact H2.
  assert (H3' : (n / 10) mod 10 = (m / 10) mod 10) by exact H3.
  clear H2 H3.
  pose proof (Nat.div_mod_eq n 10) as E1. pose proof (Nat.div_mod_eq m 10) as E2.
  assert (E3 : n / 10 = 10 * (n / 100) + (n / 10) mod 10) by exact (div_mod_step n 10).
  assert (E4 : m / 10 = 10 * (m / 100) + (m / 10) mod 10) by exact (div_mod_step m 10).
  assert (E5 : n / 100 = 10 * (n / 1000) + (n / 100) mod 10) by exact (div_mod_step n 100).
  assert (E6 : m / 100 = 10 * (m / 1000) + (m / 100) mod 10) by exact (div_mod_step m 100).
  lia.
Qed.

Lemma app_inj_length a b x y :
  String.length a = String.length b -> a +:+ x = b +:+ y -> a = b.
Proof.
  revert b. induction a as [|c a IH]; intros [|d b] Hlen H; try discriminate;
    [reflexivity|].
  rewrite !app_String in H. injection H as -> H.
  injection Hlen as Hlen. rewrite (IH b Hlen H). reflexivity.
Qed.

Lemma strftime_inj d1 d2 :
  valid_datetime d1 -> valid_datetime d2 -> strftime d1 = strftime d2 -> d1 = d2.
Proof.
  intros (Hy1 & Hm1 & Hd1 & Hh1 & Hn1 & Hs1) (Hy2 & Hm2 & Hd2 & Hh2 & Hn2 & Hs2).
  destruct d1 as [y1 m1 a1 h1 n1 s1], d2 as [y2 m2 a2 h2 n2 s2].
  cbn [dt_year dt_month dt_day dt_hour dt_minute dt_second] in *.
  unfold strftime. cbn [dt_year dt_month dt_day dt_hour dt_minute dt_second].
  intros H.
  assert (Ey : four_digits y1 = four_digits y2).
  { eapply app_inj_length; [reflexivity | exact H]. }
  rewrite Ey in H. apply (inj (String.app _)) in H.
  assert (Em : two_digits m1 = two_digits m2).
  { eapply app_inj_length; [reflexivity | exact H]. }
  rewrite Em in H. apply (inj (String.app _)) in H.
  assert (Ed : two_digits a1 = two_digits a2).
  { eapply app_inj_length; [reflexivity | exact H]. }
  rewrite Ed in H. apply (inj (String.app _)) in H.
  apply (inj (String.app "_")) in H.
  assert (Eh : two_digits h1 = two_digits h2).
  { eapply app_inj_length; [reflexivity | exact H]. }
  rewrite Eh in H. apply (inj (String.app _)) in H.
  assert (En : two_digits n1 = two_digits n2).
  { eapply app_inj_length; [reflexivity | exact H]. }
  rewrite En in H. apply (inj (String.app _)) in H.
  apply four_digits_inj in Ey; [|lia..].
  apply two_digits_inj in Em, Ed, Eh, En, H; [|lia..].
  congruence.
Qed.

(** X11: two moves of the same file name in different seconds get
    different disambiguated names: on valid dates the stamp determines
    the date and time to the second, and so does the disambiguated name. *)
Theorem disambiguated_names_differ (d1 d2 : datetime) (filename : string) :
  valid_datetime d1 -> valid_datetime d2 ->
  disambiguated d1 filename = disambiguated d2 filename -> d1 = d2.
Proof.
  intros V1 V2. unfold disambiguated.
  destruct (splitext filename) as [base ext]. intros H.
  apply (inj (String.app base)) in H. apply (inj (String.app "_")) in H.
  apply (strftime_inj _ _ V1 V2).
  eapply app_inj_length; [|exact H]. rewrite !strftime_length. reflexivity.
Qed.

Lemma disambiguated_names_differ_witness :
  disambiguated noon "a.csv" <> disambiguated (mk_datetime 2024 1 1 12 0 1) "a.csv".
Proof.
  intros H.
  assert (E : noon = mk_datetime 2024 1 1 12 0 1).
  { apply (disambiguated_names_differ noon (mk_datetime 2024 1 1 12 0 1) "a.csv");
      [unfold valid_datetime; simpl; lia | unfold valid_datetime; simpl; lia | exact H]. }
  discriminate E.
Defined.

(** ** File Router, further *)

(** X12: [move_file] never raises, makes exactly one [shutil.move]
    call, leaves the database and the connection alone, and changes no
    path other than its source and the destination it computed. *)
Theorem move_file_frame (now : datetime) (file_path : directory * string)
    (dest_dir : directory) (w : world) :
  let out := move_file now file_path dest_dir w in
  let dst := destination now file_path dest_dir (w_fs w) in
  fst out = Ok tt /\
  w_trace (snd out) = w_trace w ++ [EvMove file_path dst] /\
  w_db (snd out) = w_db w /\
  w_conn (snd out) = w_conn w /\
  fst dst = dest_dir /\
  forall q, q <> file_path -> q <> dst -> w_fs (snd out) !! q = w_fs w !! q.
Proof.
  cbv zeta. rewrite move_file_run. cbv zeta. cbn [fst snd].
  assert (Hfst : fst (destination now file_path dest_dir (w_fs w)) = dest_dir).
  { unfold destination. destruct (bool_decide _); reflexivity. }
  destruct (w_fs w !! file_path) as [content|];
    cbn [w_fs w_db w_conn w_trace set_fs record]; repeat split; auto.
  intros q Hq1 Hq2. rewrite lookup_insert_ne, lookup_delete_ne by congruence.
  reflexivity.
Qed.

(** X13: when the name is free in the destination directory, the file
    arrives there under its own name with its content, and leaves the
    input directory. *)
Theorem move_file_without_collision (now : datetime) (name : string)
    (dest_dir : directory) (content : list (list string)) (w : world) :
  dest_dir <> INPUT_DIR ->
  w_fs w !! join INPUT_DIR name = Some content ->
  w_fs w !! join dest_dir name = None ->
  let out := move_file now (join INPUT_DIR name) dest_dir w in
  w_fs (snd out)
  = <[join dest_dir name := content]> (delete (join INPUT_DIR name) (w_fs w)) /\
  w_fs (snd out) !! join dest_dir name = Some content /\
  w_fs (snd out) !! join INPUT_DIR name = None /\
  w_trace (snd out)
  = w_trace w ++ [EvMove (join INPUT_DIR name) (join dest_dir name)].
Proof.
  intros Hdir Hsrc Hfree. cbv zeta. rewrite move_file_run. cbv zeta.
  assert (Hdst : destination now (join INPUT_DIR name) dest_dir (w_fs w)
                 = join dest_dir name).
  { unfold destination. cbn [basename join snd].
    rewrite bool_decide_eq_false_2; [reflexivity|].
    intros [x Hx]. unfold join in *. cbn [snd] in Hx. congruence. }
  rewrite Hdst, Hsrc. cbn [snd w_fs w_trace set_fs record].
  split; [reflexivity|]. split; [apply lookup_insert_eq|].
  split; [|reflexivity].
  unfold join. rewrite lookup_insert_ne, lookup_delete_eq by congruence.
  reflexivity.
Qed.

Lemma move_file_without_collision_witness :
  w_fs (snd (move_file noon (join INPUT_DIR "a.csv") ERRORS_DIR crowded_destination))
    !! join ERRORS_DIR "a.csv" = Some [["new"]].
Proof.
  destruct (move_file_without_collision noon "a.csv" ERRORS_DIR [["new"]]
              crowded_destination ltac:(discriminate) eq_refl eq_refl)
    as (_ & H & _).
  exact H.
Defined.

(** X14: when the source file is not there, the failure of the move is
    swallowed: [move_file] returns normally and all files are as they
    were. *)
Theorem move_file_missing_source (now : datetime)
    (file_path : directory * string) (dest_dir : directory) (w : world) :
  w_fs w !! file_path = None ->
  fst (move_file now file_path dest_dir w) = Ok tt /\
  w_fs (snd (move_file now file_path dest_dir w)) = w_fs w.
Proof.
  intros Hsrc. rewrite move_file_run. cbv zeta. rewrite Hsrc.
  split; reflexivity.
Qed.

Lemma move_file_missing_source_witness :
  w_fs (snd (move_file noon (join INPUT_DIR "gone.csv") ERRORS_DIR two_inputs))
  = w_fs two_inputs.
Proof.
  apply (move_file_missing_source noon (join INPUT_DIR "gone.csv") ERRORS_DIR
           two_inputs).
  reflexivity.
Defined.

(** ** [process_file], further *)

Lemma insert_rows_all rows :
  forall t,
    Forall (fun r : list value => length r = length (t_columns t)) rows ->
    insert_rows None rows t = (Ok tt, mk_table (t_columns t) (t_rows t ++ rows)).
Proof.
  induction rows as [|r rows IH]; intros t Hrows.
  - cbn [insert_rows]. rewrite app_nil_r. destruct t; reflexivity.
  - apply Forall_cons in Hrows as [Hr Hrows]. cbn [insert_rows option_map].
    rewrite Hr, Nat.eqb_refl, IH by exact Hrows.
    cbn [t_columns t_rows]. rewrite <- app_assoc. reflexivity.
Qed.

Lemma insert_rows_ok_inv rows :
  forall budget t t',
    insert_rows budget rows t = (Ok tt, t') ->
    budget = None /\ t' = mk_table (t_columns t) (t_rows t ++ rows).
Proof.
  induction rows as [|r rows IH]; intros budget t t'.
  - cbn [insert_rows]. destruct budget; [discriminate|].
    intros [= <-]. rewrite app_nil_r. destruct t; auto.
  - cbn [insert_rows].
    destruct (Nat.eqb (length r) (length (t_columns t))).
    + destruct budget as [[|k]|]; [discriminate| |];
        intros H; apply IH in H as [Hb ->]; cbn [t_columns t_rows];
        rewrite <- app_assoc; [discriminate Hb | auto].
    + destruct budget as [[|k]|]; discriminate.
Qed.

Lemma loaded_row_lengths file_path now records ld :
  load_csv file_path now records = Ok ld ->
  length (headers ld) = length (original_headers ld) + 2 /\
  raw_data ld <> [] /\
  Forall (fun r : list value => length r = length (headers ld)) (raw_data ld).
Proof.
  intros Hload. destruct (load_csv_shape _ _ _ _ Hload) as [Hh Hrows].
  assert (Hlen : length (headers ld) = length (original_headers ld) + 2).
  { rewrite Hh, length_app, length_map. reflexivity. }
  split; [exact Hlen|]. split.
  - unfold load_csv in Hload. destruct records as [|original rows]; [discriminate|].
    destruct (read_rows _ _ _ rows []) as [|r0 rs]; [discriminate|].
    injection Hload as <-. discriminate.
  - apply Forall_forall. intros row Hrow%list_elem_of_In.
    destruct (Hrows row Hrow) as (cells & Hc & ->).
    rewrite length_app, length_map, Hlen, Hc. reflexivity.
Qed.

Lemma execute_create_eq fl columns w view :
  w_conn w = Some view ->
  execute_create fl columns w
  = let w1 := record (EvExecute (create_query columns)) w in
    if f_create fl then (Raise DatabaseError, w1)
    else (Ok tt, set_conn (Some (Some (created view columns))) w1).
Proof.
  intros Hview. unfold execute_create. cbv zeta. cbn [w_conn record].
  destruct (f_create fl); [reflexivity|]. rewrite Hview.
  destruct view as [t|]; [|reflexivity].
  unfold set_conn, record, created. cbn [w_fs w_db w_conn w_trace].
  rewrite Hview. reflexivity.
Qed.

Lemma executemany_eq fl rows w t :
  w_conn w = Some (Some t) ->
  executemany fl rows w
  = (fst (insert_rows (f_insert fl) rows t),
     set_conn (Some (Some (snd (insert_rows (f_insert fl) rows t))))
       (record (EvExecuteMany rows) w)).
Proof.
  intros Hview. unfold executemany. cbv zeta. cbn [w_conn record].
  rewrite Hview. destruct (insert_rows (f_insert fl) rows t); reflexivity.
Qed.

Lemma commit_eq fl w view :
  w_conn w = Some view ->
  commit fl w
  = let w1 := record EvCommit w in
    if f_commit fl then (Raise DatabaseError, w1) else (Ok tt, set_db view w1).
Proof.
  intros Hview. unfold commit. cbv zeta. cbn [w_conn record].
  rewrite Hview. reflexivity.
Qed.

(** The connected part of the [try] body, call by call. *)
Lemma infer_and_insert_eq float_ok e ld w view :
  w_conn w = Some view ->
  infer_and_insert float_ok e ld w
  = match infer_types float_ok ld with
    | Raise ex => (Raise ex, w)
    | Ok tys =>
        let columns := combine (headers ld) tys in
        let w1 := record (EvExecute (create_query columns)) w in
        if f_create (e_faults e) then (Raise DatabaseError, w1)
        else
          let ins := insert_rows (f_insert (e_faults e)) (raw_data ld)
                       (created view columns) in
          let w2 := set_conn (Some (Some (snd ins)))
                      (record (EvExecuteMany (raw_data ld)) w1) in
          match fst ins with
          | Raise ex => (Raise ex, w2)
          | Ok _ =>
              let w3 := record EvCommit w2 in
              if f_commit (e_faults e) then (Raise DatabaseError, w3)
              else (Ok true, set_db (Some (snd ins)) w3)
          end
    end.
Proof.
  intros Hview. unfold infer_and_insert, mbind, M_bind, bind, lift, ret.
  destruct (infer_types float_ok ld) as [tys|ex]; [|reflexivity].
  rewrite (execute_create_eq _ _ _ _ Hview). cbv zeta.
  destruct (f_create (e_faults e)); [reflexivity|].
  rewrite (executemany_eq _ _ _ (created view (combine (headers ld) tys)))
    by reflexivity.
  destruct (insert_rows _ _ (created view (combine (headers ld) tys)))
    as [[[]|ex] t'] eqn:Ei; cbn [fst snd]; [|reflexivity].
  rewrite (commit_eq _ _ (Some t')) by reflexivity. cbv zeta.
  destruct (f_commit (e_faults e)); reflexivity.
Qed.

(** On a fresh connection the rest of the [try] body either commits the
    whole file or leaves the committed table as it was. *)
Lemma infer_and_insert_commit float_ok e ld w r w2 :
  w_conn w = Some (w_db w) ->
  infer_and_insert float_ok e ld w = (r, w2) ->
  (r = Ok true /\
   exists tys, infer_types float_ok ld = Ok tys /\
     w_db w2 = Some (table_after (w_db w) (combine (headers ld) tys) (raw_data ld)))
  \/ (exists ex, r = Raise ex) /\ w_db w2 = w_db w.
Proof.
  intros Hconn. rewrite (infer_and_insert_eq _ _ _ _ _ Hconn).
  destruct (infer_types float_ok ld) as [tys|ex].
  2:{ intros [= <- <-]. right. eauto. }
  cbv zeta. destruct (f_create (e_faults e)).
  { intros [= <- <-]. right. eauto. }
  destruct (insert_rows _ _ (created (w_db w) (combine (headers ld) tys)))
    as [[[]|ex] t'] eqn:Ei; cbn [fst snd].
  2:{ intros [= <- <-]. right. eauto. }
  destruct (f_commit (e_faults e)).
  { intros [= <- <-]. right. eauto. }
  intros [= <- <-]. left. split; [reflexivity|]. exists tys. split; [reflexivity|].
  apply insert_rows_ok_inv in Ei as [_ ->].
  cbn [w_db set_db]. unfold created, table_after.
  destruct (w_db w); reflexivity.
Qed.

(** What [process_file] leaves committed: what the connected part of
    the [try] body left, or the table as it was when no connection was
    made.  Neither [rollback] nor [close] changes it. *)
Lemma process_file_db float_ok e file_path w :
  w_db (snd (process_file float_ok e file_path w))
  = match load_and_connect e file_path w with
    | (Ok ld, wc) => w_db (snd (infer_and_insert float_ok e ld wc))
    | (Raise _, _) => w_db w
    end /\
  w_fs (snd (process_file float_ok e file_path w)) = w_fs w.
Proof.
  unfold process_file. rewrite load_and_connect_run.
  destruct (read_loaded e file_path w) as [ld|ex]; [|split; reflexivity].
  destruct (f_connect (e_faults e)); [split; reflexivity|].
  set (wc := set_conn (Some (w_db w)) (record (EvConnect true) w)).
  assert (Hopen : is_Some (w_conn wc)) by (cbn; eauto).
  destruct (infer_and_insert float_ok e ld wc) as [r w2] eqn:E.
  destruct (infer_and_insert_inv _ _ _ _ _ _ Hopen E) as (Hfs & Hc2 & _ & _).
  unfold try_finally, try_except, mbind, M_bind, bind, ret, rollback, close.
  rewrite E. cbv zeta. cbn [snd].
  destruct Hc2 as [view Hview].
  destruct r as [success|ex]; cbn [w_conn record];
    rewrite ?Hview;
    destruct (f_rollback (e_faults e)), (f_close (e_faults e));
    cbn; split; auto.
Qed.

Lemma created_fits db ld tys :
  table_fits db ld -> length tys = length (headers ld) ->
  length (t_columns (created db (combine (headers ld) tys))) = length (headers ld).
Proof.
  intros Hfits Hlen. destruct db as [t|]; [exact Hfits|].
  cbn [created t_columns]. rewrite length_combine. lia.
Qed.

(** X15: with nothing failing outside, a readable file with at least
    one data row, and a table that is absent or has as many columns as
    the file has headers: [process_file] returns [True] after exactly the
    calls connect, CREATE, INSERT, commit, close; the committed table is
    then the old table followed by all rows of the file in file order
    (created with the file's columns when there was none); the files are
    untouched and no connection stays open. *)
Theorem import_commits_all_rows (float_ok : string -> bool) (e : env)
    (file_path : directory * string) (records : list (list string))
    (ld : loaded) (w : world) :
  e_faults e = no_faults ->
  w_conn w = None ->
  w_fs w !! file_path = Some records ->
  load_csv file_path (e_now e) records = Ok ld ->
  table_fits (w_db w) ld ->
  exists tys w',
    infer_types float_ok ld = Ok tys /\
    process_file float_ok e file_path w = (Ok true, w') /\
    w_db w' = Some (table_after (w_db w) (combine (headers ld) tys) (raw_data ld)) /\
    w_conn w' = None /\
    w_fs w' = w_fs w /\
    w_trace w'
    = w_trace w ++ [EvConnect true;
                    EvExecute (create_query (combine (headers ld) tys));
                    EvExecuteMany (raw_data ld); EvCommit; EvClose].
Proof.
  intros Hfl Hconn Hsrc Hload Hfits.
  destruct (infer_types_ok float_ok _ _ _ _ Hload) as (cd & tys & _ & Htys & Hlen & _).
  destruct (loaded_row_lengths _ _ _ _ Hload) as (_ & _ & Hrows).
  exists tys.
  unfold process_file. rewrite load_and_connect_run. unfold read_loaded.
  rewrite Hfl. cbn [f_open f_connect no_faults]. rewrite Hsrc, Hload.
  unfold try_finally, try_except.
  rewrite (infer_and_insert_eq _ _ _ _ (w_db w)) by reflexivity.
  rewrite Htys. cbv zeta. rewrite ?Hfl. cbn [f_create f_insert f_commit no_faults].
  rewrite insert_rows_all.
  2:{ eapply Forall_impl; [exact Hrows|]. intros r Hr. cbv beta.
      rewrite Hr. symmetry. apply created_fits; assumption. }
  cbn [fst snd]. unfold close. rewrite ?Hfl. cbn [f_close no_faults]. cbv zeta.
  eexists. split; [reflexivity|]. split; [reflexivity|].
  cbn [w_db w_conn w_fs w_trace set_db set_conn record].
  split.
  { unfold created, table_after. destruct (w_db w); reflexivity. }
  split; [reflexivity|]. split; [reflexivity|].
  rewrite <- !app_assoc. reflexivity.
Qed.

Lemma import_commits_all_rows_witness :
  exists w',
    process_file decimal_literal calm (join INPUT_DIR "a.csv") two_inputs
    = (Ok true, w') /\
    w_db w'
    = Some (mk_table
              [("id", DOUBLE_PRECISION); ("amount", DOUBLE_PRECISION);
               ("date", TIMESTAMP); ("source_filename", TEXT);
               ("import_timestamp", TIMESTAMP)]
              [[VStr "1"; VStr "10.5"; VStr "2024-01-01"; VStr "a.csv"; VTime noon];
               [VStr "2"; VNone; VStr "2024-01-02"; VStr "a.csv"; VTime noon]]).
Proof.
  destruct (import_commits_all_rows decimal_literal calm (join INPUT_DIR "a.csv")
              readings _ two_inputs eq_refl eq_refl eq_refl eq_refl I)
    as (tys & w' & Htys & Hrun & Hdb & _).
  exists w'. split; [exact Hrun|].
  rewrite Hdb. injection Htys as <-. reflexivity.
Defined.

(** X17: whatever fails, [process_file] commits a file whole or not at
    all: afterwards the committed table is the one from before, or it is
    that table followed by every row of the file; an existing table keeps
    its columns and its rows, in place. *)
Theorem commit_is_all_or_nothing (float_ok : string -> bool) (e : env)
    (file_path : directory * string) (w : world) :
  let w' := snd (process_file float_ok e file_path w) in
  (w_db w' = w_db w \/
   exists ld tys,
     read_loaded e file_path w = Ok ld /\
     infer_types float_ok ld = Ok tys /\
     w_db w' = Some (table_after (w_db w) (combine (headers ld) tys) (raw_data ld))) /\
  (forall t, w_db w = Some t ->
     exists added, w_db w' = Some (mk_table (t_columns t) (t_rows t ++ added))).
Proof.
  cbv zeta.
  assert (H : w_db (snd (process_file float_ok e file_path w)) = w_db w \/
              exists ld tys,
                read_loaded e file_path w = Ok ld /\
                infer_types float_ok ld = Ok tys /\
                w_db (snd (process_file float_ok e file_path w))
                = Some (table_after (w_db w) (combine (headers ld) tys) (raw_data ld))).
  { rewrite (proj1 (process_file_db float_ok e file_path w)).
    rewrite load_and_connect_run.
    destruct (read_loaded e file_path w) as [ld|ex]; [|left; reflexivity].
    destruct (f_connect (e_faults e)); [left; reflexivity|].
    set (wc := set_conn (Some (w_db w)) (record (EvConnect true) w)).
    destruct (infer_and_insert float_ok e ld wc) as [r w2] eqn:E.
    destruct (infer_and_insert_commit float_ok e ld wc r w2 eq_refl E)
      as [(_ & tys & Htys & Hdb) | (_ & Hdb)].
    - right. exists ld, tys. auto.
    - left. exact Hdb. }
  split; [exact H|].
  intros t Ht. destruct H as [H | (ld & tys & _ & _ & H)]; rewrite H, Ht.
  - exists []. rewrite app_nil_r. destruct t; reflexivity.
  - exists (raw_data ld). reflexivity.
Qed.

Lemma commit_is_all_or_nothing_witness :
  exists added,
    w_db (snd (process_file decimal_literal insert_fails (join INPUT_DIR "a.csv")
                 (set_db (Some narrow_table) two_inputs)))
    = Some (mk_table (t_columns narrow_table) (t_rows narrow_table ++ added)).
Proof.
  destruct (commit_is_all_or_nothing decimal_literal insert_fails
              (join INPUT_DIR "a.csv") (set_db (Some narrow_table) two_inputs))
    as [_ H].
  exact (H narrow_table eq_refl).
Defined.

(** X18: a file that cannot be read (the open fails, the file is gone)
    or that has no header row makes [process_file] return [False] with
    the world exactly as it was: no connection is attempted. *)
Theorem unreadable_file_returns_false (float_ok : string -> bool) (e : env)
    (file_path : directory * string) (w : world) :
  f_open (e_faults e) = true \/
  w_fs w !! file_path = None \/
  w_fs w !! file_path = Some [] ->
  (exists ex, fst (try_body float_ok e file_path w) = Raise ex /\
              (ex = OSError \/ ex = EmptyFileError)) /\
  process_file float_ok e file_path w = (Ok false, w).
Proof.
  intros H.
  assert (Hread : exists ex, read_loaded e file_path w = Raise ex /\
                             (ex = OSError \/ ex = EmptyFileError)).
  { unfold read_loaded. destruct (f_open (e_faults e)); [eauto|].
    destruct H as [H | [-> | ->]]; [discriminate | eauto | eauto]. }
  destruct Hread as (ex & Hread & Hex).
  split.
  - exists ex. split; [|exact Hex].
    unfold try_body, mbind, M_bind, bind. rewrite load_and_connect_run, Hread.
    reflexivity.
  - unfold process_file. rewrite load_and_connect_run, Hread. reflexivity.
Qed.

Lemma unreadable_file_returns_false_witness :
  process_file decimal_literal calm (join INPUT_DIR "gone.csv") two_inputs
  = (Ok false, two_inputs).
Proof.
  apply (unreadable_file_returns_false decimal_literal calm
           (join INPUT_DIR "gone.csv") two_inputs).
  right. left. reflexivity.
Defined.

(** X19: when the connection is refused, [process_file] returns
    [False] and the refused connect is its only call: with [conn] still
    unset, neither [rollback] nor [close] is called. *)
Theorem refused_connection_returns_false (float_ok : string -> bool) (e : env)
    (file_path : directory * string) (ld : loaded) (w : world) :
  read_loaded e file_path w = Ok ld ->
  f_connect (e_faults e) = true ->
  fst (try_body float_ok e file_path w) = Raise ConnectionError /\
  process_file float_ok e file_path w
  = (Ok false, record (EvConnect false) w).
Proof.
  intros Hread Hrefused. split.
  - unfold try_body, mbind, M_bind, bind.
    rewrite load_and_connect_run, Hread, Hrefused. reflexivity.
  - unfold process_file. rewrite load_and_connect_run, Hread, Hrefused.
    reflexivity.
Qed.

Lemma refused_connection_returns_false_witness :
  w_trace (snd (process_file decimal_literal
                  (mk_env (mk_faults false true false None false false false) noon noon)
                  (join INPUT_DIR "a.csv") two_inputs))
  = [EvConnect false].
Proof.
  destruct (refused_connection_returns_false decimal_literal
              (mk_env (mk_faults false true false None false false false) noon noon)
              (join INPUT_DIR "a.csv") _ two_inputs eq_refl eq_refl) as [_ H].
  rewrite H. reflexivity.
Defined.

(** X20: when only [close] fails, on a file that would import: the rows
    are committed, yet the exception of [close] leaves [process_file], so
    the [for] loop of [main_loop] stops there without calling
    [move_file]: the file is still in the input directory although its
    rows are in the table. *)
Theorem close_failure_after_commit (float_ok : string -> bool) (e : env)
    (o : string -> env) (name : string) (rest : list string)
    (records : list (list string)) (ld : loaded) (w : world) :
  e_faults e = mk_faults false false false None false false true ->
  o name = e ->
  PyStr.startswith "." name = false ->
  w_conn w = None ->
  w_fs w !! join INPUT_DIR name = Some records ->
  load_csv (join INPUT_DIR name) (e_now e) records = Ok ld ->
  table_fits (w_db w) ld ->
  exists tys w',
    infer_types float_ok ld = Ok tys /\
    process_file float_ok e (join INPUT_DIR name) w = (Raise DatabaseError, w') /\
    for_files float_ok o (name :: rest) w = (Raise DatabaseError, w') /\
    w_db w' = Some (table_after (w_db w) (combine (headers ld) tys) (raw_data ld)) /\
    w_fs w' = w_fs w /\
    is_Some (w_conn w').
Proof.
  intros Hfl Ho Hdot Hconn Hsrc Hload Hfits.
  destruct (infer_types_ok float_ok _ _ _ _ Hload) as (cd & tys & _ & Htys & Hlen & _).
  destruct (loaded_row_lengths _ _ _ _ Hload) as (_ & _ & Hrows).
  exists tys.
  assert (Hrun : exists w',
    process_file float_ok e (join INPUT_DIR name) w = (Raise DatabaseError, w') /\
    w_db w' = Some (table_after (w_db w) (combine (headers ld) tys) (raw_data ld)) /\
    w_fs w' = w_fs w /\ is_Some (w_conn w')).
  { unfold process_file. rewrite load_and_connect_run. unfold read_loaded.
    rewrite Hfl. cbn [f_open f_connect]. rewrite Hsrc, Hload.
    unfold try_finally, try_except.
    rewrite (infer_and_insert_eq _ _ _ _ (w_db w)) by reflexivity.
    rewrite Htys. cbv zeta. rewrite ?Hfl. cbn [f_create f_insert f_commit].
    rewrite insert_rows_all.
    2:{ eapply Forall_impl; [exact Hrows|]. intros r Hr. cbv beta.
        rewrite Hr. symmetry. apply created_fits; assumption. }
    cbn [fst snd]. unfold close. rewrite ?Hfl. cbn [f_close]. cbv zeta.
    eexists. split; [reflexivity|].
    cbn [w_db w_conn w_fs w_trace set_db set_conn record].
    split; [unfold created, table_after; destruct (w_db w); reflexivity|].
    split; [reflexivity | eauto]. }
  destruct Hrun as (w' & Hrun & Hdb & Hfs & Hopen).
  exists w'. split; [exact Htys|]. split; [exact Hrun|].
  split; [|auto]. subst e. apply for_files_abort; assumption.
Qed.

Lemma close_failure_after_commit_witness :
  exists w',
    for_files decimal_literal (fun _ => close_fails) ["a.csv"; "b.csv"] two_inputs
    = (Raise DatabaseError, w') /\
    w_fs w' = w_fs two_inputs /\
    exists t, w_db w' = Some t /\ length (t_rows t) = 2.
Proof.
  destruct (close_failure_after_commit decimal_literal close_fails
              (fun _ => close_fails) "a.csv" ["b.csv"] readings _ two_inputs
              eq_refl eq_refl eq_refl eq_refl eq_refl eq_refl I)
    as (tys & w' & _ & _ & Hloop & Hdb & Hfs & _).
  exists w'. split; [exact Hloop|]. split; [exact Hfs|].
  eexists. split; [exact Hdb | reflexivity].
Defined.

(** ** [main_loop], further *)

(** X21: files whose name starts with a dot are passed over: the loop
    does on a listing what it does on the listing without them. *)
Theorem hidden_files_are_skipped (float_ok : string -> bool)
    (o : string -> env) (files : list string) (w : world) :
  for_files float_ok o files w
  = for_files float_ok o (List.filter visible files) w.
Proof.
  revert w. induction files as [|name rest IH]; intros w; [reflexivity|].
  cbn [for_files List.filter]. unfold visible at 1.
  destruct (PyStr.startswith "." name) eqn:E; cbn [negb].
  - apply IH.
  - cbn [for_files]. rewrite E. unfold mbind, M_bind, bind.
    destruct (process_file float_ok (o name) (join INPUT_DIR name) w)
      as [[success|ex] w1]; [|reflexivity].
    destruct (if success then _ else _) as [[[]|ex] w2]; [apply IH | reflexivity].
Qed.

Lemma listdir_spec (d : directory)
    (fs : gmap (directory * string) (list (list string))) (name : string) :
  In name (listdir d fs) <-> is_Some (fs !! (d, name)).
Proof.
  unfold listdir. rewrite <- list_elem_of_In, list_elem_of_omap. split.
  - intros ([[d' n] content] & Hin & Hsome).
    apply elem_of_map_to_list in Hin.
    destruct (decide (d' = d)) as [->|]; [|discriminate].
    injection Hsome as ->. eauto.
  - intros [content Hc]. exists ((d, name), content). split.
    + apply elem_of_map_to_list, Hc.
    + rewrite decide_True by reflexivity. reflexivity.
Qed.

Lemma process_file_settled float_ok e file_path w :
  f_rollback (e_faults e) = false -> f_close (e_faults e) = false ->
  w_conn w = None ->
  exists success w1,
    process_file float_ok e file_path w = (Ok success, w1) /\
    w_conn w1 = None /\ w_fs w1 = w_fs w.
Proof.
  intros Hrb Hcl Hconn.
  unfold process_file. rewrite load_and_connect_run.
  destruct (read_loaded e file_path w) as [ld|ex]; [|eauto].
  destruct (f_connect (e_faults e)); [eauto|].
  set (wc := set_conn (Some (w_db w)) (record (EvConnect true) w)).
  assert (Hopen : is_Some (w_conn wc)) by (cbn; eauto).
  destruct (infer_and_insert float_ok e ld wc) as [r w2] eqn:E.
  destruct (infer_and_insert_inv _ _ _ _ _ _ Hopen E) as (Hfs & [view Hview] & _ & _).
  unfold try_finally, try_except, mbind, M_bind, bind, ret, rollback, close.
  rewrite E, Hrb, Hcl. cbv zeta. cbn [w_conn record]. rewrite Hview.
  destruct r as [success|ex]; eexists _, _; (split; [reflexivity|]);
    cbn [w_conn w_fs set_conn record]; auto.
Qed.

Lemma for_files_drains float_ok o files :
  (forall name, f_rollback (e_faults (o name)) = false /\
                f_close (e_faults (o name)) = false) ->
  forall w, w_conn w = None ->
  exists w',
    for_files float_ok o files w = (Ok tt, w') /\
    w_conn w' = None /\
    forall name,
      w_fs w' !! join INPUT_DIR name
      = if bool_decide (name ∈ files) && visible name then None
        else w_fs w !! join INPUT_DIR name.
Proof.
  intros Hgood. induction files as [|file rest IH]; intros w Hconn.
  - exists w. split; [reflexivity|]. split; [exact Hconn|].
    intros name. rewrite bool_decide_eq_false_2 by apply not_elem_of_nil.
    reflexivity.
  - cbn [for_files]. destruct (PyStr.startswith "." file) eqn:Edot.
    + destruct (IH w Hconn) as (w' & Hrun & Hc & Hfs).
      exists w'. split; [exact Hrun|]. split; [exact Hc|].
      intros name. rewrite Hfs.
      destruct (visible name) eqn:Ev; [|rewrite !andb_false_r; reflexivity].
      rewrite !andb_true_r.
      replace (bool_decide (name ∈ file :: rest)) with (bool_decide (name ∈ rest));
        [reflexivity|].
      apply bool_decide_ext. rewrite elem_of_cons. split; [auto|].
      intros [->|H]; [|exact H]. unfold visible in Ev. rewrite Edot in Ev.
      discriminate Ev.
    + destruct (Hgood file) as [Hrb Hcl].
      destruct (process_file_settled float_ok (o file) (join INPUT_DIR file) w
                  Hrb Hcl Hconn) as (success & w1 & Hrun & Hc1 & Hfs1).
      unfold mbind, M_bind, bind. rewrite Hrun.
      set (dest := if success then PROCESSED_DIR else ERRORS_DIR).
      assert (Hdest : dest <> INPUT_DIR) by (unfold dest; destruct success; discriminate).
      replace (if success
               then move_file (e_move_now (o file)) (join INPUT_DIR file) PROCESSED_DIR
               else move_file (e_move_now (o file)) (join INPUT_DIR file) ERRORS_DIR)
        with (move_file (e_move_now (o file)) (join INPUT_DIR file) dest)
        by (unfold dest; destruct success; reflexivity).
      rewrite move_file_run. cbv zeta.
      set (dst := destination (e_move_now (o file)) (join INPUT_DIR file) dest (w_fs w1)).
      assert (Hdst : fst dst = dest).
      { unfold dst, destination. destruct (bool_decide _); reflexivity. }
      set (w2 := match w_fs w1 !! join INPUT_DIR file with
                 | Some content =>
                     set_fs (<[dst := content]> (delete (join INPUT_DIR file) (w_fs w1)))
                       (record (EvMove (join INPUT_DIR file) dst) w1)
                 | None => record (EvMove (join INPUT_DIR file) dst) w1
                 end).
      assert (Hc2 : w_conn w2 = None).
      { unfold w2. destruct (w_fs w1 !! join INPUT_DIR file); exact Hc1. }
      assert (Hfs2 : forall name,
                w_fs w2 !! join INPUT_DIR name
                = if bool_decide (name = file) then None
                  else w_fs w !! join INPUT_DIR name).
      { intros name. unfold w2. rewrite <- Hfs1.
        destruct (w_fs w1 !! join INPUT_DIR file) as [content|] eqn:Esrc;
          cbn [w_fs set_fs record].
        - rewrite lookup_insert_ne.
          2:{ intros H. apply (f_equal fst) in H. rewrite Hdst in H. exact (Hdest H). }
          destruct (bool_decide (name = file)) eqn:En.
          + apply bool_decide_eq_true in En. subst name. apply lookup_delete_eq.
          + apply bool_decide_eq_false in En.
            apply lookup_delete_ne. unfold join. congruence.
        - destruct (bool_decide (name = file)) eqn:En; [|reflexivity].
          apply bool_decide_eq_true in En. subst name. exact Esrc. }
      destruct (IH w2 Hc2) as (w' & Hrest & Hc & Hfs).
      exists w'. split; [exact Hrest|]. split; [exact Hc|].
      intros name. rewrite Hfs, Hfs2.
      destruct (bool_decide (name = file)) eqn:En.
      * apply bool_decide_eq_true in En. subst name.
        rewrite (bool_decide_eq_true_2 (file ∈ file :: rest)) by (apply elem_of_cons; left; reflexivity).
        unfold visible. rewrite Edot. cbn [negb andb].
        destruct (bool_decide (file ∈ rest) && true); reflexivity.
      * apply bool_decide_eq_false in En.
        replace (bool_decide (name ∈ file :: rest))
          with (bool_decide (name ∈ rest)); [reflexivity|].
        apply bool_decide_ext. rewrite elem_of_cons. split; [auto|].
        intros [H|H]; [congruence | exact H].
Qed.

(** X23: when neither [rollback] nor [close] fails for any file, a turn
    of the loop empties the input directory of every file whose name does
    not start with a dot, leaves the dot files where they are, and leaves
    no connection open. *)
Theorem poll_cycle_drains_input (float_ok : string -> bool)
    (o : string -> env) (w : world) :
  (forall name, f_rollback (e_faults (o name)) = false /\
                f_close (e_faults (o name)) = false) ->
  w_conn w = None ->
  let w' := snd (poll_cycle float_ok o w) in
  w_conn w' = None /\
  forall name,
    w_fs w' !! join INPUT_DIR name
    = if visible name then None else w_fs w !! join INPUT_DIR name.
Proof.
  intros Hgood Hconn. cbv zeta.
  destruct (for_files_drains float_ok o (listdir INPUT_DIR (w_fs w)) Hgood w Hconn)
    as (w' & Hrun & Hc & Hfs).
  unfold poll_cycle, try_except. rewrite Hrun. cbn [snd].
  split; [exact Hc|]. intros name. rewrite Hfs.
  destruct (visible name); [|rewrite andb_false_r; reflexivity].
  rewrite andb_true_r.
  destruct (bool_decide (name ∈ listdir INPUT_DIR (w_fs w))) eqn:E; [reflexivity|].
  apply bool_decide_eq_false in E. rewrite list_elem_of_In, listdir_spec in E.
  destruct (w_fs w !! join INPUT_DIR name) eqn:El; [|reflexivity].
  exfalso. apply E. unfold join in El. rewrite El. eauto.
Qed.

Lemma poll_cycle_drains_input_witness :
  w_fs (snd (poll_cycle decimal_literal (fun _ => insert_fails) two_inputs))
    !! join INPUT_DIR "a.csv" = None.
Proof.
  destruct (poll_cycle_drains_input decimal_literal (fun _ => insert_fails)
              two_inputs (fun _ => conj eq_refl eq_refl) eq_refl) as [_ H].
  exact (H "a.csv").
Defined.

(** ** CSV Loader and schema, further *)

Lemma read_rows_nonblank n filename now rows acc :
  read_rows n filename now rows acc
  = acc ++ map (cleaned_row n filename now) (List.filter nonblank rows).
Proof.
  revert acc. induction rows as [|[|c row] rows IH]; intros acc.
  - cbn. rewrite app_nil_r. reflexivity.
  - cbn [read_rows List.filter nonblank length Nat.eqb negb]. apply IH.
  - cbn [read_rows List.filter nonblank length Nat.eqb negb map].
    rewrite IH, <- app_assoc. reflexivity.
Qed.

(** X24: step 1 keeps one row per record that has at least one cell,
    in file order: no header row raises the empty-file exception, no such
    record raises the no-data exception, and otherwise [raw_data] is the
    cleaned form of exactly those records. *)
Theorem load_csv_keeps_nonblank_records (file_path : directory * string)
    (now : datetime) (header : list string) (rows : list (list string)) :
  load_csv file_path now [] = Raise EmptyFileError /\
  load_csv file_path now (header :: rows)
  = match List.filter nonblank rows with
    | [] => Raise NoDataError
    | kept =>
        Ok (mk_loaded header
              (map (fun h => clean_name (Some h)) header
               ++ ["source_filename"; "import_timestamp"])
              (map (cleaned_row (length header) (basename file_path) now) kept))
    end.
Proof.
  split; [reflexivity|].
  unfold load_csv. rewrite read_rows_nonblank. cbn [app].
  rewrite <- app_assoc. cbn [app].
  destruct (List.filter nonblank rows); reflexivity.
Qed.

(** X25: the types [process_file] gives the columns of a loaded file:
    one per header; TEXT and TIMESTAMP for the two metadata columns at
    the end; and for a data column whose normalized name is not one of
    the two metadata names, what [infer_sql_type] says of that name and
    of the column's cells taken from all rows in row order. *)
Theorem column_types_of_loaded_file (float_ok : string -> bool)
    (file_path : directory * string) (now : datetime)
    (records : list (list string)) (ld : loaded) :
  load_csv file_path now records = Ok ld ->
  let n := length (original_headers ld) in
  exists tys,
    infer_types float_ok ld = Ok tys /\
    length tys = n + 2 /\
    tys !! n = Some TEXT /\
    tys !! (n + 1) = Some TIMESTAMP /\
    forall i raw,
      original_headers ld !! i = Some raw ->
      clean_name (Some raw) <> "source_filename" ->
      clean_name (Some raw) <> "import_timestamp" ->
      exists t,
        tys !! i = Some t /\
        infer_sql_type float_ok (clean_name (Some raw))
          (map (fun row => default VNone (row !! i)) (raw_data ld)) = Ok t.
Proof.
  intros Hload. cbv zeta.
  destruct (infer_types_ok float_ok _ _ _ _ Hload) as (cd & tys & Hcd & Hrun & Hlen & Hty).
  destruct (load_csv_shape _ _ _ _ Hload) as [Hh _].
  destruct (loaded_row_lengths _ _ _ _ Hload) as (Hhl & _ & Hrows).
  remember (length (original_headers ld)) as n eqn:En.
  assert (Hmap : length (map (fun h => clean_name (Some h)) (original_headers ld)) = n)
    by (rewrite length_map; congruence).
  exists tys. split; [exact Hrun|]. split; [congruence|].
  assert (Hmeta1 : headers ld !! n = Some "source_filename").
  { rewrite Hh, lookup_app_r by (rewrite Hmap; lia).
    rewrite Hmap, Nat.sub_diag. reflexivity. }
  assert (Hmeta2 : headers ld !! (n + 1) = Some "import_timestamp").
  { rewrite Hh, lookup_app_r by (rewrite Hmap; lia). rewrite Hmap.
    replace (n + 1 - n) with 1 by lia. reflexivity. }
  split.
  { destruct (Hty _ _ Hmeta1) as (t & Ht & Hct). rewrite Ht.
    unfold column_type in Hct. cbn in Hct. congruence. }
  split.
  { destruct (Hty _ _ Hmeta2) as (t & Ht & Hct). rewrite Ht.
    unfold column_type in Hct. cbn in Hct. congruence. }
  intros i raw Hraw Hn1 Hn2.
  pose proof (lookup_lt_Some _ _ _ Hraw) as Hi. rewrite <- En in Hi.
  assert (Hhi : headers ld !! i = Some (clean_name (Some raw))).
  { rewrite Hh, lookup_app_l by (rewrite Hmap; lia).
    rewrite list_lookup_fmap, Hraw. reflexivity. }
  destruct (Hty _ _ Hhi) as (t & Ht & Hct).
  exists t. split; [exact Ht|].
  destruct (fill_columns_spec n (raw_data ld) (repeat [] n)) as (cd' & Hcd' & _ & Hget).
  { apply repeat_length. }
  { eapply Forall_impl; [exact Hrows|]. intros r Hr. cbv beta in Hr |- *. lia. }
  assert (cd' = cd) as -> by congruence.
  unfold column_type in Hct.
  apply String.eqb_neq in Hn1, Hn2. rewrite Hn1, Hn2 in Hct.
  apply Nat.ltb_lt in Hi. rewrite Hi in Hct.
  apply Nat.ltb_lt in Hi.
  rewrite (Hget i [] (lookup_repeat _ _ _ Hi)) in Hct. exact Hct.
Qed.

Lemma column_types_of_loaded_file_witness :
  exists ld,
    load_csv (join INPUT_DIR "a.csv") noon readings = Ok ld /\
    infer_types decimal_literal ld
    = Ok [DOUBLE_PRECISION; DOUBLE_PRECISION; TIMESTAMP; TEXT; TIMESTAMP].
Proof.
  eexists. split; [reflexivity|].
  destruct (column_types_of_loaded_file decimal_literal (join INPUT_DIR "a.csv")
              noon readings _ eq_refl) as (tys & Hrun & _).
  rewrite Hrun. f_equal. injection Hrun as <-. reflexivity.
Defined.
